(** * OpenSlides: projector slide stub, migration 0021 and start-up helpers

    A shallow embedding of three source files of the OpenSlides backend:

    - [openslides/mediafiles/projector.py]  (module [Projector]),
    - [openslides/motions/migrations/0021_state_access_level.py]
      (module [Migration0021]),
    - [openslides/utils/main.py]  (module [Main]).

    Python values, exceptions and the error monad shared by the three
    live in module [Py]. *)

From Stdlib Require Import ZArith Ascii String.
From stdpp Require Import gmap strings list fin_maps pretty.

Local Open Scope Z_scope.
Local Open Scope string_scope.
Local Open Scope list_scope.

(* ===================================================================== *)
(** ** Python values, exceptions, results *)
(* ===================================================================== *)

Module Py.

(** The Python values the modelled code inspects.  Text is one
    constructor: the code only compares text with ASCII literals, for
    which Python equates byte strings and unicode strings. *)
Inductive pyval :=
| PNone
| PBool (b : bool)
| PInt (n : Z)
| PStr (s : string).

#[export] Instance pyval_eq_dec : EqDecision pyval.
Proof. solve_decision. Defined.

(** [bool(v)]: the truth value of [v] in a condition. *)
Definition truthy (v : pyval) : bool :=
  match v with
  | PNone => false
  | PBool b => b
  | PInt n => negb (n =? 0)%Z
  | PStr s => negb (String.eqb s EmptyString)
  end.

(** [v == 'literal'] for a text literal. *)
Definition eq_str (v : pyval) (lit : string) : bool :=
  match v with
  | PStr s => String.eqb s lit
  | _ => false
  end.

(** Exception classes raised or caught by the modelled code. *)
Inductive exc_class :=
| Exception
| EnvironmentError
| OSError
| WindowsError
| IOError
| SocketError
| TypeError
| AttributeError
| LookupError
| UnicodeDecodeError
| OperationalError
| FieldDoesNotExist
| PortableDirNotWritable
| DatabaseInSettingsError.

#[export] Instance exc_class_eq_dec : EqDecision exc_class.
Proof. solve_decision. Defined.

(** The direct base class, as in Python 2 ([socket.error] derives from
    [IOError]; [OSError] and [IOError] are siblings below
    [EnvironmentError]; [WindowsError] derives from [OSError]); the two
    exceptions of [openslides.utils.main] derive from [Exception]
    directly. *)
Definition base (c : exc_class) : option exc_class :=
  match c with
  | Exception => None
  | OSError | IOError => Some EnvironmentError
  | WindowsError => Some OSError
  | SocketError => Some IOError
  | _ => Some Exception
  end.

Fixpoint subclass_fuel (n : nat) (c d : exc_class) : bool :=
  if decide (c = d) then true
  else match n with
       | O => false
       | S n' => match base c with
                 | Some b => subclass_fuel n' b d
                 | None => false
                 end
       end.

(** [issubclass(c, d)]; the hierarchy above has depth 3. *)
Definition subclass (c d : exc_class) : bool := subclass_fuel 4 c d.

Record exn := Exc { exc_type : exc_class; exc_msg : string }.

#[export] Instance exn_eq_dec : EqDecision exn.
Proof. solve_decision. Defined.

(** [except d:] catches [e]. *)
Definition caught_by (e : exn) (d : exc_class) : bool :=
  subclass (exc_type e) d.

(** The outcome of a call: a value or a raised exception. *)
Inductive result (A : Type) :=
| Return (a : A)
| Raise (e : exn).
Arguments Return {A} a.
Arguments Raise {A} e.

#[export] Instance result_ret : MRet result := @Return.
#[export] Instance result_bind : MBind result := λ A B f r,
  match r with
  | Return a => f a
  | Raise e => Raise e
  end.

Definition raises {A} (r : result A) (c : exc_class) : Prop :=
  ∃ msg, r = Raise (Exc c msg).

(** [str.lower()] on ASCII text. *)
Definition lower_ascii (c : ascii) : ascii :=
  let n := nat_of_ascii c in
  if (65 <=? n)%nat && (n <=? 90)%nat then ascii_of_nat (n + 32) else c.

Fixpoint lower (s : string) : string :=
  match s with
  | EmptyString => EmptyString
  | String c s' => String (lower_ascii c) (lower s')
  end.

End Py.
Import Py.

(* ===================================================================== *)
(** ** openslides/mediafiles/projector.py *)
(* ===================================================================== *)

Module Projector.

(** [AllData]: collection name -> element id -> element. *)
Abbreviation AllData := (gmap string (gmap Z (gmap string pyval))).

(** def mediafile_slide(all_data, element) *)
Definition mediafile_slide (all_data : AllData) (element : gmap string pyval)
  : gmap string pyval :=
  {[ "error" := PStr "TODO" ]}.

End Projector.

(* ===================================================================== *)
(** ** openslides/motions/migrations/0021_state_access_level.py *)
(* ===================================================================== *)

Module Migration0021.

(** A database row: column name -> value. *)
Abbreviation row := (gmap string pyval).

(** A table of one model: its columns, its rows by primary key, and the
    journal of the primary keys written by [save()], oldest first. *)
Record table := Table {
  fields : list string;
  rows : gmap Z row;
  writes : list Z
}.

(** The versioned app registry of the app [motions]: lower-cased model
    name -> table. *)
Abbreviation database := (gmap string table).

(** Every row has exactly the columns of its table. *)
Definition conforms (t : table) : Prop :=
  map_Forall (λ _ (r : row), dom r = list_to_set (fields t)) (rows t).

(** models.IntegerField(choices=..., default=...) *)
Record field := IntegerField {
  choices : list (Z * string);
  default : Z
}.

(** The three kinds of operation the migration uses.  [RunPython] takes
    the forward code and the optional [reverse_code]. *)
Inductive operation :=
| AddField (model_name name : string) (f : field)
| RunPython (code : database → result database)
            (reverse_code : option (database → result database))
| RemoveField (model_name name : string).

(** apps.get_model(app_label, model_name) *)
Definition get_model (apps : database) (app_label model_name : string)
  : result table :=
  match apps !! lower model_name with
  | Some t => Return t
  | None =>
      Raise (Exc LookupError
               ("App '" +:+ app_label +:+ "' doesn't have a '"
                  +:+ model_name +:+ "' model."))
  end.

(** Reading an attribute of a model instance. *)
Definition getattr (obj : row) (name : string) : result pyval :=
  match obj !! name with
  | Some v => Return v
  | None =>
      Raise (Exc AttributeError
               ("'State' object has no attribute '" +:+ name +:+ "'"))
  end.

(** obj.save(): the columns of the model are written to the row with
    the object's primary key. *)
Definition save (pk : Z) (obj : row) (t : table) : table :=
  {| fields := fields t;
     rows := <[pk := filter (λ kv, kv.1 ∈ fields t) obj]> (rows t);
     writes := writes t ++ [pk] |}.

(** The body of the [for state in State.objects.all()] loop. *)
Definition transform_state (t : table) (pk : Z) (state : row)
  : result table :=
  v ← getattr state "required_permission_to_see";
  if truthy v then
    let state' := <["access_level" := PInt 1]> state in
    Return (save pk state' t)
  else
    Return t.

(** def transform_required_permission_to_see_field(apps, schema_editor):
    the queryset is evaluated once, then the loop runs over its rows. *)
Definition transform_required_permission_to_see_field (apps : database)
  : result database :=
  State ← get_model apps "motions" "State";
  t ← foldl (λ acc (e : Z * row), t ← acc; transform_state t e.1 e.2)
        (Return State) (map_to_list (rows State));
  Return (<["state" := t]> apps).

(** Migration.operations *)
Definition access_level_field : field :=
  {| choices :=
       [ (0, "All users with permission to see motions");
         (1, "Submitters, managers and users with permission to manage metadata");
         (2, "Only managers and users with permission to manage metadata");
         (3, "Only managers") ];
     default := 0 |}.

Definition operations : list operation :=
  [ AddField "state" "access_level" access_level_field;
    RunPython transform_required_permission_to_see_field None;
    RemoveField "state" "required_permission_to_see" ].

(** The schema editor: a new column holds the field's default in every
    existing row; a dropped column disappears from every row.  A column
    that is there already is refused, as a database server refuses a
    duplicate column (the editor of SQLite rebuilds the table instead);
    on a database at schema 0020 the migration never meets that case. *)
Definition add_field (name : string) (f : field) (t : table) : result table :=
  if decide (name ∈ fields t) then
    Raise (Exc OperationalError ("duplicate column name: " +:+ name))
  else
    Return {| fields := fields t ++ [name];
              rows := (λ r : row, <[name := PInt (default f)]> r) <$> rows t;
              writes := writes t |}.

Definition remove_field (name : string) (t : table) : result table :=
  if decide (name ∈ fields t) then
    Return {| fields := filter (λ n, n ≠ name) (fields t);
              rows := (λ r : row, delete name r) <$> rows t;
              writes := writes t |}
  else
    Raise (Exc FieldDoesNotExist
             ("State has no field named '" +:+ name +:+ "'")).

Definition lookup_model (db : database) (model_name : string) : result table :=
  match db !! model_name with
  | Some t => Return t
  | None =>
      Raise (Exc LookupError ("No installed model '" +:+ model_name +:+ "'"))
  end.

(** operation.database_forwards *)
Definition database_forwards (op : operation) (db : database)
  : result database :=
  match op with
  | AddField m name f =>
      t ← lookup_model db m;
      t' ← add_field name f t;
      Return (<[m := t']> db)
  | RunPython code _ => code db
  | RemoveField m name =>
      t ← lookup_model db m;
      t' ← remove_field name t;
      Return (<[m := t']> db)
  end.

(** Migration.apply: the operations run in list order; the first
    exception aborts the migration. *)
Definition apply (ops : list operation) (db : database) : result database :=
  foldl (λ acc op, db' ← acc; database_forwards op db') (Return db) ops.

(** The state table before the migration: well-formed rows, with the
    column the migration consumes and without the one it adds. *)
Definition schema_0020 (db : database) : Prop :=
  ∃ t, db !! "state" = Some t
       ∧ conforms t
       ∧ "required_permission_to_see" ∈ fields t
       ∧ "access_level" ∉ fields t.

(** Two sample databases at schema 0020. *)
Definition state_fields_0020 : list string :=
  ["id"; "name"; "required_permission_to_see"].

Definition sample_state (pk : Z) (name perm : string) : row :=
  {[ "id" := PInt pk; "name" := PStr name;
     "required_permission_to_see" := PStr perm ]}.

Definition sample_db (perm : string) : database :=
  {[ "state" :=
       {| fields := state_fields_0020;
          rows := {[ 1 := sample_state 1 "submitted" EmptyString;
                     2 := sample_state 2 "internal" perm ]};
          writes := [] |} ]}.

(** Auxiliary descriptions of the loop, used to state its lemmas: what
    the loop body makes of one row, whether it saves the row, and the
    value the new column ends with. *)
Definition transformed (fs : list string) (r : row) : row :=
  match r !! "required_permission_to_see" with
  | Some v =>
      if truthy v
      then filter (λ kv, kv.1 ∈ fs) (<["access_level" := PInt 1]> r)
      else r
  | None => r
  end.

Definition saved (e : Z * row) : bool :=
  match e.2 !! "required_permission_to_see" with
  | Some v => truthy v
  | None => false
  end.

Definition new_access_level (r : row) : Z :=
  if saved (0, r) then 1 else 0.

End Migration0021.

(* ===================================================================== *)
(** ** openslides/utils/main.py *)
(* ===================================================================== *)

Module Main.

Definition UNIX_VERSION : string := "Unix Version".
Definition WINDOWS_VERSION : string := "Windows Version".
Definition WINDOWS_PORTABLE_VERSION : string := "Windows Portable Version".

(** *** The host and the world *)

(** Python 2 text: a byte string or a unicode string. *)
Inductive text :=
| Bytes (s : string)
| Unicode (s : string).

(** A path operation applied to text together with ASCII literals keeps
    the kind of the text. *)
Definition text_map (f : string → string) (t : text) : text :=
  match t with
  | Bytes s => Bytes (f s)
  | Unicode s => Unicode (f s)
  end.

(** The module [os.path] of the host ([posixpath] or [ntpath]);
    [abspath] and [realpath] are taken for the current directory and
    links of the host. *)
Record os_path := OsPath {
  join : string → list string → string;
  basename : string → string;
  dirname : string → string;
  abspath : string → string;
  realpath : string → string
}.

(** Calls on a socket, in the order they are made. *)
Inductive event :=
| EvSocket
| EvBind (address : string) (port : Z)
| EvListen (backlog : Z)
| EvClose.

(** What the code reads from its host: interpreter facts, and the
    outcomes of the system calls whose result the file system model
    below does not determine ([None] for a socket call: no exception). *)
Record host := Host {
  platform : string;                         (* sys.platform *)
  executable : string;                       (* sys.executable *)
  path : os_path;                            (* os.path *)
  home : string;                             (* os.path.expanduser('~') *)
  fs_decode : string → option string;        (* decode, filesystem encoding *)
  module_dir : string;                       (* os.path.dirname(__file__) *)
  shell32 : option (Z * string);             (* SHGetFolderPathW: res, buf *)
  mkstemp_outcome : string → result (Z * string);
  urandom : nat → string;                    (* os.urandom *)
  b64encode : string → string;
  format : string → gmap string string → result string;  (* template % context *)
  repr : string → string;                    (* repr of a unicode string *)
  socket_outcome : option exn;               (* socket.socket() *)
  bind_outcome : string → Z → option exn;    (* s.bind((address, port)) *)
  listen_outcome : string → Z → option exn   (* s.listen() once bound *)
}.

Inductive node :=
| File (content : string)
| Dir.

(** What the code changes: files and directories by path, open file
    descriptors, the process environment, standard output, and the
    socket calls made so far. *)
Record world := World {
  fs : gmap string node;
  fds : gset Z;
  environ : gmap string string;
  stdout : list string;
  calls : list event
}.

(** Computations: a result and the world after them; an exception
    leaves the changes made before it. *)
Definition io (A : Type) : Type := world → result A * world.

#[export] Instance io_ret : MRet io := λ A a w, (Return a, w).
#[export] Instance io_bind : MBind io := λ A B f m w,
  match m w with
  | (Return a, w') => f a w'
  | (Raise e, w') => (Raise e, w')
  end.

Definition raise {A} (c : exc_class) (msg : string) : io A :=
  λ w, (Raise (Exc c msg), w).

Definition lift {A} (r : result A) : io A := λ w, (r, w).

(** try: body / except cls: handler *)
Definition try_except {A} (body : io A) (cls : exc_class)
    (handler : exn → io A) : io A := λ w,
  match body w with
  | (Raise e, w') =>
      if caught_by e cls then handler e w' else (Raise e, w')
  | done => done
  end.

(** try: body / except cls: handler / else: orelse *)
Definition try_except_else {A B} (body : io A) (cls : exc_class)
    (handler : exn → io B) (orelse : A → io B) : io B := λ w,
  match body w with
  | (Return a, w') => orelse a w'
  | (Raise e, w') =>
      if caught_by e cls then handler e w' else (Raise e, w')
  end.

(** try: body / finally: final *)
Definition try_finally {A} (body : io A) (final : io unit) : io A := λ w,
  let '(r, w') := body w in
  match final w' with
  | (Return _, w'') => (r, w'')
  | (Raise e, w'') => (Raise e, w'')
  end.

(** *** System calls *)

Definition exists_ (p : string) : io bool :=
  λ w, (Return (bool_decide (is_Some (fs w !! p))), w).

Definition set_fs (f : gmap string node → gmap string node) (w : world)
  : world :=
  {| fs := f (fs w); fds := fds w; environ := environ w;
     stdout := stdout w; calls := calls w |}.

Definition set_fds (f : gset Z → gset Z) (w : world) : world :=
  {| fs := fs w; fds := f (fds w); environ := environ w;
     stdout := stdout w; calls := calls w |}.

Definition log (e : event) (w : world) : world :=
  {| fs := fs w; fds := fds w; environ := environ w;
     stdout := stdout w; calls := calls w ++ [e] |}.

(** tempfile.mkstemp(dir=...): a new empty file, open. *)
Definition mkstemp (h : host) (dir : string) : io (Z * string) := λ w,
  match mkstemp_outcome h dir with
  | Return (fd, name) =>
      (Return (fd, name),
       set_fds (λ s, {[fd]} ∪ s) (set_fs (insert name (File EmptyString)) w))
  | Raise e => (Raise e, w)
  end.

Definition os_close (fd : Z) : io unit := λ w,
  if decide (fd ∈ fds w) then (Return (), set_fds (λ s, s ∖ {[fd]}) w)
  else (Raise (Exc OSError "[Errno 9] Bad file descriptor"), w).

Definition os_unlink (p : string) : io unit := λ w,
  match fs w !! p with
  | Some (File _) => (Return (), set_fs (delete p) w)
  | Some Dir => (Raise (Exc OSError "[Errno 21] Is a directory"), w)
  | None => (Raise (Exc OSError "[Errno 2] No such file or directory"), w)
  end.

(** os.makedirs(p), on a file system that holds the paths the code
    consults: the directory is entered under its own path. *)
Definition os_makedirs (p : string) : io unit := λ w,
  match fs w !! p with
  | Some _ => (Raise (Exc OSError "[Errno 17] File exists"), w)
  | None => (Return (), set_fs (insert p Dir) w)
  end.

(** open(p).read() *)
Definition read_file (p : string) : io string := λ w,
  match fs w !! p with
  | Some (File c) => (Return c, w)
  | Some Dir => (Raise (Exc IOError "[Errno 21] Is a directory"), w)
  | None => (Raise (Exc IOError "[Errno 2] No such file or directory"), w)
  end.

(** open(p, 'w').write(content) *)
Definition write_file (p content : string) : io unit := λ w,
  match fs w !! p with
  | Some Dir => (Raise (Exc IOError "[Errno 21] Is a directory"), w)
  | _ => (Return (), set_fs (insert p (File content)) w)
  end.

Definition print (line : string) : io unit := λ w,
  (Return (),
   {| fs := fs w; fds := fds w; environ := environ w;
      stdout := stdout w ++ [line]; calls := calls w |}).

(** os.environ.get(key, default) *)
Definition environ_get (key fallback : string) : io string :=
  λ w, (Return (default fallback (environ w !! key)), w).

Definition socket_call (e : event) (outcome : option exn) : io unit := λ w,
  match outcome with
  | None => (Return (), log e w)
  | Some x => (Raise x, log e w)
  end.

(** str(v), as [%s] formats it. *)
Definition py_str (v : pyval) : string :=
  match v with
  | PNone => "None"
  | PBool true => "True"
  | PBool false => "False"
  | PInt n => pretty n
  | PStr s => s
  end.


(** *** The functions of the module *)

(** def filesystem2unicode(path) *)
Definition filesystem2unicode (h : host) (p : text) : result string :=
  match p with
  | Unicode u => Return u
  | Bytes b =>
      match fs_decode h b with
      | Some u => Return u
      | None =>
          Raise (Exc UnicodeDecodeError "codec can't decode bytes of the path")
      end
  end.

(** def detect_openslides_type() *)
Definition detect_openslides_type (h : host) : string :=
  if String.eqb (platform h) "win32" then
    if String.eqb (lower (basename (path h) (executable h))) "openslides.exe"
    then WINDOWS_PORTABLE_VERSION
    else WINDOWS_VERSION
  else UNIX_VERSION.

(** def get_win32_app_data_path() *)
Definition get_win32_app_data_path (h : host) : io string :=
  match shell32 h with
  | None => raise AttributeError "'module' object has no attribute 'WinDLL'"
  | Some (res, buf) =>
      if negb (res =? 0)%Z
      then raise Exception "Could not determine Windows' APPDATA path"
      else mret buf
  end.

(** def get_win32_portable_path() *)
Definition get_win32_portable_path (h : host) : io string :=
  portable_path ← lift (filesystem2unicode h
    (Bytes (dirname (path h) (abspath (path h) (executable h)))));
  _ ← try_except_else (mkstemp h portable_path) OSError
        (λ _, raise PortableDirNotWritable
           ("Portable directory is not writeable. "
              +:+ "Please choose another directory for settings and data files."))
        (λ '(fd, test_file), _ ← os_close fd; os_unlink test_file);
  mret portable_path.

(** def get_default_settings_path(openslides_type) *)
Definition get_default_settings_path (h : host) (openslides_type : pyval)
  : io string :=
  parent_directory ←
    (if eq_str openslides_type UNIX_VERSION then
       raw ← environ_get "XDG_CONFIG_HOME"
               (join (path h) (home h) [".config"]);
       lift (filesystem2unicode h (Bytes raw))
     else if eq_str openslides_type WINDOWS_VERSION then
       get_win32_app_data_path h
     else if eq_str openslides_type WINDOWS_PORTABLE_VERSION then
       get_win32_portable_path h
     else
       raise TypeError
         (py_str openslides_type +:+ " is not a valid OpenSlides type."));
  mret (join (path h) parent_directory ["openslides"; "settings.py"]).

(** def get_default_user_data_path(openslides_type) *)
Definition get_default_user_data_path (h : host) (openslides_type : pyval)
  : io string :=
  if eq_str openslides_type UNIX_VERSION then
    raw ← environ_get "XDG_DATA_HOME"
            (join (path h) (home h) [".local"; "share"]);
    lift (filesystem2unicode h (Bytes raw))
  else if eq_str openslides_type WINDOWS_VERSION then
    get_win32_app_data_path h
  else if eq_str openslides_type WINDOWS_PORTABLE_VERSION then
    get_win32_portable_path h
  else
    raise TypeError
      (py_str openslides_type +:+ " is not a valid OpenSlides type.").

(** ['.' in value] *)
Definition has_dot (s : string) : bool :=
  existsb (Ascii.eqb ".") (list_ascii_of_string s).

(** def get_user_data_path_values_with_path: its [paths] are a
    first path and ASCII literals after it. *)
Definition get_user_data_path_values_with_path (h : host)
    (first : text) (more : list string) : result (gmap string string) :=
  let final_path :=
    text_map (λ p, abspath (path h) (join (path h) p more)) first in
  let user_data_path_values : gmap string string :=
    {[ "import_function" := EmptyString ]} in
  let variables :=
    [ ("database_path_value", "database.sqlite");
      ("media_path_value", "media");
      ("whoosh_index_path_value", "whoosh_index") ] in
  foldl (λ acc '(key, value),
           values ← acc;
           let path_list := if has_dot value then [value]
                            else [value; EmptyString] in
           u ← filesystem2unicode h
                 (text_map (λ p, join (path h) p path_list) final_path);
           Return (<[key := repr h u]> values))
        (Return user_data_path_values) variables.

(** def get_user_data_path_values(user_data_path, default=False,
    openslides_type=None) *)
Definition get_user_data_path_values (h : host) (user_data_path : text)
    (default : bool) (openslides_type : pyval)
  : result (gmap string string) :=
  if default && eq_str openslides_type WINDOWS_PORTABLE_VERSION then
    Return
      (<["whoosh_index_path_value" := "get_portable_paths('whoosh_index')"]>
        (<["media_path_value" := "get_portable_paths('media')"]>
          (<["database_path_value" := "get_portable_paths('database')"]>
            (<["import_function" :=
                 "from openslides.utils.main import get_portable_paths"]>
               ∅))))
  else
    get_user_data_path_values_with_path h user_data_path ["openslides"].

(** A path given on the command line is a byte string; [os.path.join]
    fails on a value that is not text. *)
Definition as_text (v : pyval) : result text :=
  match v with
  | PStr s => Return (Bytes s)
  | _ =>
      Raise (Exc AttributeError
               ("object has no attribute 'endswith': " +:+ py_str v))
  end.

(** def get_default_settings_context(user_data_path=None) *)
Definition get_default_settings_context (h : host) (user_data_path : pyval)
  : io (gmap string string) :=
  default_context ←
    (if truthy user_data_path then
       lift (p ← as_text user_data_path;
             get_user_data_path_values h p false PNone)
     else
       let openslides_type := PStr (detect_openslides_type h) in
       user_data_path ← get_default_user_data_path h openslides_type;
       lift (get_user_data_path_values h (Unicode user_data_path) true
               openslides_type));
  mret (<["debug" := "False"]> default_context).

(** def write_settings(settings_path, template=None, **context) *)
Definition write_settings (h : host) (settings_path : string)
    (template : option string) (context : gmap string string) : io unit :=
  template ←
    match template with
    | None => read_file (join (path h) (module_dir h) ["settings.py.tpl"])
    | Some t => mret t
    end;
  let context :=
    match context !! "secret_key" with
    | Some _ => context
    | None => <["secret_key" := b64encode h (urandom h 30)]> context
    end in
  content ← lift (format h template context);
  let settings_module := realpath (path h) (dirname (path h) settings_path) in
  present ← exists_ settings_module;
  _ ← (if negb present then os_makedirs settings_module else mret ());
  write_file settings_path content.

(** [os.path.exists] takes text; another value makes it raise. *)
Definition as_path (v : pyval) : io string :=
  match v with
  | PStr s => mret s
  | _ => raise TypeError "coercing to Unicode: need string or buffer"
  end.

(** def ensure_settings(settings, args); [args] maps the attributes of
    the namespace to their values. *)
Definition ensure_settings (h : host) (settings : pyval)
    (args : gmap string pyval) : io unit :=
  if truthy settings then
    settings_path ← as_path settings;
    present ← exists_ settings_path;
    if negb present then
      context ←
        match args !! "user_data_path" with
        | None => get_default_settings_context h PNone
        | Some user_data_path => get_default_settings_context h user_data_path
        end;
      _ ← write_settings h settings_path None context;
      print ("Settings file at " +:+ settings_path
               +:+ " successfully created.")
    else mret ()
  else mret ().

(** def get_port(address, port) *)
Definition get_port (h : host) (address : string) (port : Z) : io Z :=
  if (port =? 80)%Z then
    _ ← socket_call EvSocket (socket_outcome h);
    try_finally
      (try_except
         (_ ← socket_call (EvBind address port) (bind_outcome h address port);
          _ ← socket_call (EvListen (-1)) (listen_outcome h address port);
          mret port)
         SocketError
         (λ _, mret 8000%Z))
      (λ w, (Return (), log EvClose w))
  else mret port.

(** dict.get(key): [None] for a missing key. *)
Definition dict_get (d : gmap string pyval) (key : string) : pyval :=
  default PNone (d !! key).

Definition DEFAULT_DB_ALIAS : string := "default".

(** def get_database_path_from_settings(), as a function of
    [django_settings.DATABASES]. *)
Definition get_database_path_from_settings
    (DATABASES : gmap string (gmap string pyval)) : result pyval :=
  match DATABASES !! DEFAULT_DB_ALIAS with
  | None => Raise (Exc DatabaseInSettingsError
                     "Default databases is not configured")
  | Some default =>
      if bool_decide (default = ∅) then
        Raise (Exc DatabaseInSettingsError
                 "Default databases is not configured")
      else
        let database_path := dict_get default "NAME" in
        if negb (truthy database_path) then
          Raise (Exc DatabaseInSettingsError
                   "No path specified for default database.")
        else if negb (eq_str (dict_get default "ENGINE")
                        "django.db.backends.sqlite3")
        then Return PNone
        else Return database_path
  end.


(** *** Further functions of the module *)

(** [s.split(sep)]: the pieces between the separators, at least one. *)
Fixpoint split (sep : ascii) (s : string) : list string :=
  match s with
  | EmptyString => [EmptyString]
  | String c s' =>
      if Ascii.eqb c sep then EmptyString :: split sep s'
      else match split sep s' with
           | piece :: pieces => String c piece :: pieces
           | [] => [String c EmptyString]
           end
  end.

(** [sep.join(pieces)] *)
Fixpoint str_join (sep : string) (pieces : list string) : string :=
  match pieces with
  | [] => EmptyString
  | [piece] => piece
  | piece :: rest => piece +:+ sep +:+ str_join sep rest
  end.

(** django.conf.ENVIRONMENT_VARIABLE *)
Definition ENVIRONMENT_VARIABLE : string := "DJANGO_SETTINGS_MODULE".

(** The outcome of [setup_django_settings_module]: [sys.path] and the
    world after it, or the exception of django. *)
Inductive configured :=
| Configured (sys_path : list string) (w : world)
| ImproperlyConfigured (msg : string).

(** def setup_django_settings_module(settings_path), on [sys.path] and
    the world. *)
Definition setup_django_settings_module (h : host) (settings_path : string)
    (sys_path : list string) (w : world) : configured :=
  let settings_file := basename (path h) settings_path in
  let settings_module_name :=
    str_join "." (removelast (split "." settings_file)) in
  if has_dot settings_module_name then
    ImproperlyConfigured
      "'.' is not an allowed character in the settings-file"
  else
    let settings_module_dir := dirname (path h) settings_path in
    Configured (settings_module_dir :: sys_path)
      {| fs := fs w; fds := fds w;
         environ := <[ENVIRONMENT_VARIABLE := settings_module_name]> (environ w);
         stdout := stdout w; calls := calls w |}.

(** def get_portable_paths(name) *)
Definition get_portable_paths (h : host) (name : pyval) : io string :=
  if eq_str name "database" then
    portable ← get_win32_portable_path h;
    mret (join (path h) portable ["openslides"; "database.sqlite"])
  else if eq_str name "media" then
    portable ← get_win32_portable_path h;
    mret (join (path h) portable ["openslides"; "media"; EmptyString])
  else if eq_str name "whoosh_index" then
    portable ← get_win32_portable_path h;
    mret (join (path h) portable ["openslides"; "whoosh_index"; EmptyString])
  else
    raise TypeError ("Unknown type " +:+ py_str name).

(** def get_browser_url(address, port) *)
Definition get_browser_url (address : string) (port : Z) : string :=
  let browser_url := "http://" in
  let browser_url :=
    if String.eqb address "0.0.0.0" then browser_url +:+ "localhost"
    else browser_url +:+ address in
  if negb (port =? 80)%Z then browser_url +:+ ":" +:+ pretty port
  else browser_url.

(** *** Footprints *)

(** [w'] differs from [w] by nothing a user can observe outside the
    file system: same output, same environment, same socket calls, and
    no file descriptor open that was not open before. *)
Definition quiet (w w' : world) : Prop :=
  stdout w' = stdout w
  ∧ environ w' = environ w
  ∧ calls w' = calls w
  ∧ fds w' ⊆ fds w.

(** Moreover nothing was added to the file system or changed in it. *)
Definition readonly (w w' : world) : Prop :=
  quiet w w' ∧ fs w' ⊆ fs w.

(** A computation whose every run, returning or raising, respects the
    relation [R] between the world before and the world after. *)
Definition respects {A} (R : world → world → Prop) (m : io A) : Prop :=
  ∀ w, R w (m w).2.

(** The keys of the path values of the settings template. *)
Definition context_keys : gset string :=
  {[ "import_function"; "database_path_value"; "media_path_value";
     "whoosh_index_path_value" ]}.

(** *** Sample hosts and worlds *)

(** [os.path] for paths that are absolute and normal already, split at
    the separators [sep], with an optional drive letter. *)
Definition is_slash (c : ascii) : bool := Ascii.eqb c "/".
Definition is_nt_sep (c : ascii) : bool :=
  Ascii.eqb c "/" || Ascii.eqb c "\".

Fixpoint last_component (sep : ascii → bool) (cs acc : list ascii)
  : list ascii :=
  match cs with
  | [] => acc
  | c :: cs' =>
      if sep c then last_component sep cs' []
      else last_component sep cs' (acc ++ [c])
  end.

Fixpoint lstrip (sep : ascii → bool) (cs : list ascii) : list ascii :=
  match cs with
  | c :: cs' => if sep c then lstrip sep cs' else cs
  | [] => []
  end.

(** (head, tail) as [os.path.split] gives them. *)
Definition split_path (sep : ascii → bool) (p : string) : string * string :=
  let cs := list_ascii_of_string p in
  let tail := last_component sep cs [] in
  let head := take (length cs - length tail) cs in
  let stripped := rev (lstrip sep (rev head)) in
  (string_of_list_ascii (match stripped with [] => head | _ => stripped end),
   string_of_list_ascii tail).

Definition ends_with (sep : ascii → bool) (p : string) : bool :=
  match rev (list_ascii_of_string p) with
  | c :: _ => sep c
  | [] => false
  end.

Definition starts_with (sep : ascii → bool) (p : string) : bool :=
  match p with
  | String c _ => sep c
  | EmptyString => false
  end.

Definition posix_join (a : string) (p : list string) : string :=
  foldl (λ acc b,
           if starts_with is_slash b then b
           else if String.eqb acc EmptyString || ends_with is_slash acc
                then acc +:+ b
                else acc +:+ "/" +:+ b)
        a p.

Definition posixpath : os_path :=
  {| join := posix_join;
     basename := λ p, (split_path is_slash p).2;
     dirname := λ p, (split_path is_slash p).1;
     abspath := λ p, p;
     realpath := λ p, p |}.

Definition splitdrive (p : string) : string * string :=
  match p with
  | String d (String ":" rest) => (String d (String ":" EmptyString), rest)
  | _ => (EmptyString, p)
  end.

Definition nt_join (a : string) (p : list string) : string :=
  foldl (λ acc b,
           if starts_with is_nt_sep b then b
           else if String.eqb acc EmptyString || ends_with is_nt_sep acc
                then acc +:+ b
                else acc +:+ "\" +:+ b)
        a p.

Definition ntpath : os_path :=
  {| join := nt_join;
     basename := λ p, (split_path is_nt_sep (splitdrive p).2).2;
     dirname := λ p,
       (splitdrive p).1 +:+ (split_path is_nt_sep (splitdrive p).2).1;
     abspath := λ p, p;
     realpath := λ p, p |}.

(** A host on which nothing fails unless the arguments say so.  Its
    [os.urandom] yields the byte ['a'] thirty times, whose base64 text
    is the value of [b64encode]; its templates have no conversion
    specifier, so formatting returns them; its [repr] wraps the text
    in [u'...'], as Python does for ASCII text without quotes or
    backslashes. *)
Definition sample_host (platform executable : string) (ospath : os_path)
    (tmp : string → result (Z * string))
    (bound listened : option exn) : host :=
  {| platform := platform;
     executable := executable;
     path := ospath;
     home := "/home/alice";
     fs_decode := Some;
     module_dir := "/opt/openslides/utils";
     shell32 :=
       if String.eqb platform "win32"
       then Some (0%Z, "C:\Users\alice\AppData\Local")
       else None;
     mkstemp_outcome := tmp;
     urandom := λ n, string_of_list_ascii (replicate n "a"%char);
     b64encode := λ _, "YWFhYWFhYWFhYWFhYWFhYWFhYWFhYWFhYWFhYWFh";
     format := λ template _, Return template;
     repr := λ u, "u'" +:+ u +:+ "'";
     socket_outcome := None;
     bind_outcome := λ _ _, bound;
     listen_outcome := λ _ _, listened |}.

Definition tmp_ok (dir : string) : result (Z * string) :=
  Return (3%Z, dir +:+ "\tmpk3x9qa").

Definition tmp_denied (dir : string) : result (Z * string) :=
  Raise (Exc OSError ("[Errno 13] Permission denied: " +:+ dir)).

Definition unix_host : host :=
  sample_host "linux2" "/usr/bin/python" posixpath tmp_denied None None.

Definition portable_host (tmp : string → result (Z * string)) : host :=
  sample_host "win32" "C:\OpenSlides\openslides.exe" ntpath tmp None None.

Definition address_in_use : exn :=
  Exc SocketError "[Errno 98] Address already in use".

(** A world with the settings template installed and nothing else. *)
Definition sample_world : world :=
  {| fs := {[ "/opt/openslides/utils/settings.py.tpl"
                := File "# settings for OpenSlides";
              "/opt/openslides/utils" := Dir ]};
     fds := ∅;
     environ := ∅;
     stdout := [];
     calls := [] |}.

(** Decoding with the codec [ascii], the filesystem encoding of Python
    2 in the C locale: bytes above 127 cannot be decoded. *)
Definition ascii_codec (b : string) : option string :=
  if forallb (λ c, (nat_of_ascii c <? 128)%nat) (list_ascii_of_string b)
  then Some b
  else None.

(** The Unix sample host in the C locale. *)
Definition c_locale_host : host :=
  {| platform := platform unix_host;
     executable := executable unix_host;
     path := path unix_host;
     home := home unix_host;
     fs_decode := ascii_codec;
     module_dir := module_dir unix_host;
     shell32 := shell32 unix_host;
     mkstemp_outcome := mkstemp_outcome unix_host;
     urandom := urandom unix_host;
     b64encode := b64encode unix_host;
     format := format unix_host;
     repr := repr unix_host;
     socket_outcome := socket_outcome unix_host;
     bind_outcome := bind_outcome unix_host;
     listen_outcome := listen_outcome unix_host |}.

(** A config home with the byte 233 in it ([/home/ren] and an e acute
    in Latin-1). *)
Definition latin1_config_home : string :=
  "/home/ren" +:+ String "233" EmptyString +:+ "/.config".

Definition latin1_world : world :=
  {| fs := ∅;
     fds := ∅;
     environ := {[ "XDG_CONFIG_HOME" := latin1_config_home ]};
     stdout := [];
     calls := [] |}.

End Main.

(* ===================================================================== *)
(** ** Properties of the projector slide *)
(* ===================================================================== *)

Module ProjectorSpec.
Import Projector.

(** C9: [mediafile_slide(all_data, element)] is the dictionary
    [{"error": "TODO"}] for every [all_data] and every [element]: its
    only key is ["error"], bound to ["TODO"], and two calls with
    arbitrary arguments give equal dictionaries.  The function is pure:
    its result is a value, there is no state to change. *)
Theorem mediafile_slide_constant :
  ∀ (all_data : AllData) (element : gmap string pyval),
    mediafile_slide all_data element = {[ "error" := PStr "TODO" ]}
    ∧ mediafile_slide all_data element !! "error" = Some (PStr "TODO")
    ∧ dom (mediafile_slide all_data element) = ({[ "error" ]} : gset string)
    ∧ ∀ (all_data' : AllData) (element' : gmap string pyval),
        mediafile_slide all_data' element' = mediafile_slide all_data element.
Proof.
  intros all_data element. unfold mediafile_slide.
  split; [reflexivity|]. split; [apply lookup_singleton_eq|].
  split; [apply dom_singleton_L|]. reflexivity.
Qed.

End ProjectorSpec.

(* ===================================================================== *)
(** ** Properties of migration 0021 *)
(* ===================================================================== *)

Module Migration0021Spec.
Import Migration0021.

Abbreviation rps := "required_permission_to_see".
Abbreviation al := "access_level".

Abbreviation loop :=
  (foldl (λ acc (e : Z * row), t ← acc; transform_state t e.1 e.2)).

(** The loop over a list of distinct primary keys whose rows all carry
    the old column: it ends normally, keeps the columns, rewrites the
    rows with a truthy value and journals exactly those. *)
Lemma loop_spec (l : list (Z * row)) :
  NoDup l.*1 →
  Forall (λ e, is_Some (e.2 !! rps)) l →
  ∀ t, ∃ t',
    loop (Return t) l = Return t'
    ∧ fields t' = fields t
    ∧ writes t' = (writes t ++ (filter (λ e, saved e = true) l).*1)%list
    ∧ ∀ pk, rows t' !! pk =
        match (list_to_map l : gmap Z row) !! pk with
        | Some r => if saved (pk, r) then Some (transformed (fields t) r)
                    else rows t !! pk
        | None => rows t !! pk
        end.
Proof.
  induction l as [|[pk r] l IH]; intros Hnd Hall t.
  - exists t. simpl. rewrite app_nil_r. repeat split; try reflexivity.
  - apply NoDup_cons in Hnd as [Hpk Hnd].
    apply Forall_cons in Hall as [[v Hv] Hall].
    simpl in Hv.
    assert (Hstep : ∃ t1, transform_state t pk r = Return t1
              ∧ fields t1 = fields t
              ∧ writes t1 = (writes t ++ (if truthy v then [pk] else []))%list
              ∧ ∀ k, rows t1 !! k =
                  if decide (k = pk)
                  then (if truthy v then Some (transformed (fields t) r)
                        else rows t !! k)
                  else rows t !! k).
    { unfold transform_state, getattr, transformed. rewrite Hv. simpl.
      destruct (truthy v).
      - eexists. split; [reflexivity|]. simpl. repeat split.
        intros k. case_decide as Hk.
        + subst k. by rewrite lookup_insert_eq.
        + by rewrite lookup_insert_ne.
      - exists t. rewrite app_nil_r. repeat split.
        intros k. by case_decide. }
    destruct Hstep as (t1 & Ht1 & Hf1 & Hw1 & Hr1).
    destruct (IH Hnd Hall t1) as (t' & Hloop & Hf & Hw & Hr).
    exists t'. simpl. rewrite Ht1. split; [exact Hloop|].
    split; [congruence|]. split.
    + assert (Hs : saved (pk, r) = truthy v) by (unfold saved; simpl; by rewrite Hv).
      rewrite Hw, Hw1, filter_cons, Hs.
      destruct (truthy v); simpl;
        [by rewrite <- app_assoc | by rewrite app_nil_r].
    + intros k. rewrite Hr, Hr1, Hf1. simpl.
      destruct (decide (k = pk)) as [->|Hk].
      * rewrite lookup_insert_eq.
        rewrite (not_elem_of_list_to_map_1 _ _ Hpk).
        unfold saved. simpl. rewrite Hv. reflexivity.
      * rewrite lookup_insert_ne by done. reflexivity.
Qed.


(** The transform on a database whose state rows all carry the old
    column. *)
Lemma transform_spec (db : database) (t : table) :
  db !! "state" = Some t →
  map_Forall (λ _ (r : row), is_Some (r !! rps)) (rows t) →
  ∃ t',
    transform_required_permission_to_see_field db
      = Return (<["state" := t']> db)
    ∧ fields t' = fields t
    ∧ writes t'
      = (writes t
           ++ (filter (λ e, saved e = true) (map_to_list (rows t))).*1)%list
    ∧ rows t' = transformed (fields t) <$> rows t.
Proof.
  intros Hdb Hall.
  destruct (loop_spec (map_to_list (rows t))) with (t := t)
    as (t' & Hloop & Hf & Hw & Hr).
  { apply NoDup_fst_map_to_list. }
  { apply Forall_forall. intros [pk r] Hin.
    apply elem_of_map_to_list in Hin. exact (Hall pk r Hin). }
  exists t'. split.
  - unfold transform_required_permission_to_see_field, get_model.
    change (lower "State") with "state". rewrite Hdb. simpl.
    rewrite Hloop. reflexivity.
  - split; [exact Hf|]. split; [exact Hw|].
    apply map_eq. intros pk. rewrite Hr, list_to_map_to_list, lookup_fmap.
    destruct (rows t !! pk) as [r|] eqn:Hpk; simpl; [|reflexivity].
    unfold saved, transformed. simpl.
    destruct (r !! rps) as [v|]; [|reflexivity].
    destruct (truthy v); reflexivity.
Qed.

(** Which primary keys the loop journals. *)
Lemma saved_keys (m : gmap Z row) (pk : Z) :
  pk ∈ (filter (λ e, saved e = true) (map_to_list m)).*1
  ↔ ∃ r, m !! pk = Some r ∧ saved (pk, r) = true.
Proof.
  rewrite list_elem_of_fmap. split.
  - intros [[k r] [-> Hin]]. apply list_elem_of_filter in Hin as [Hs Hin].
    apply elem_of_map_to_list in Hin. exists r. split; assumption.
  - intros (r & Hm & Hs). exists (pk, r). split; [reflexivity|].
    apply list_elem_of_filter. split; [exact Hs|].
    by apply elem_of_map_to_list.
Qed.

Lemma lookup_model_Some (db : database) (m : string) (t : table) :
  db !! m = Some t → lookup_model db m = Return t.
Proof. intros H. unfold lookup_model. by rewrite H. Qed.

Lemma add_field_spec (name : string) (f : field) (t : table) :
  name ∉ fields t →
  add_field name f t
  = Return {| fields := fields t ++ [name];
              rows := (λ r : row, <[name := PInt (default f)]> r) <$> rows t;
              writes := writes t |}.
Proof. intros H. unfold add_field. by rewrite decide_False. Qed.

(** A conforming row with the new column set passes [save] whole. *)
Lemma save_filter_id (fs : list string) (r : row) (v : pyval) :
  dom r = list_to_set fs →
  filter (λ kv : string * pyval, kv.1 ∈ fs ++ [al]) (<[al := v]> r)
  = <[al := v]> r.
Proof.
  intros Hdom. apply map_filter_id. intros k x Hk. simpl.
  apply elem_of_app.
  destruct (decide (k = al)) as [->|Hne].
  - right. by apply list_elem_of_singleton.
  - left. rewrite lookup_insert_ne in Hk by done.
    apply (elem_of_list_to_set (C := gset string)). rewrite <- Hdom.
    apply elem_of_dom. by exists x.
Qed.

(** The table after the first operation. *)
Lemma add_field_step (db : database) (t : table) :
  db !! "state" = Some t →
  al ∉ fields t →
  database_forwards (AddField "state" al access_level_field) db
  = Return (<["state" :=
      {| fields := fields t ++ [al];
         rows := (λ r : row, <[al := PInt 0]> r) <$> rows t;
         writes := writes t |}]> db).
Proof.
  intros Hdb Hal. cbn [database_forwards].
  rewrite (lookup_model_Some db "state" t Hdb). cbn [mbind result_bind].
  rewrite add_field_spec by exact Hal. reflexivity.
Qed.

(** The table after the second operation. *)
Lemma transform_step (db : database) (t : table) :
  conforms t →
  rps ∈ fields t →
  let t1 := {| fields := fields t ++ [al];
               rows := (λ r : row, <[al := PInt 0]> r) <$> rows t;
               writes := writes t |} in
  ∃ t2 ws,
    transform_required_permission_to_see_field (<["state" := t1]> db)
      = Return (<["state" := t2]> db)
    ∧ fields t2 = fields t ++ [al]
    ∧ rows t2
      = (λ r : row, <[al := PInt (new_access_level r)]> r) <$> rows t
    ∧ writes t2 = writes t ++ ws
    ∧ ∀ pk, pk ∈ ws ↔ ∃ r, rows t !! pk = Some r ∧ saved (pk, r) = true.
Proof.
  intros Hconf Hrps t1.
  destruct (transform_spec (<["state" := t1]> db) t1)
    as (t2 & Htr & Hf2 & Hw2 & Hr2).
  { apply lookup_insert_eq. }
  { unfold t1; simpl. apply map_Forall_fmap. intros pk r Hr. simpl.
    rewrite lookup_insert_ne by done.
    apply elem_of_dom. rewrite (Hconf pk r Hr).
    by apply elem_of_list_to_set. }
  exists t2. eexists. rewrite Htr, insert_insert_eq.
  split; [reflexivity|]. split; [exact Hf2|].
  rewrite Hr2, Hw2. unfold t1. cbn [fields rows writes].
  split; [|split; [reflexivity|]].
  - apply map_eq. intros pk. rewrite !lookup_fmap.
    destruct (rows t !! pk) as [r|] eqn:Hpk; simpl; [|reflexivity].
    f_equal. unfold transformed, new_access_level, saved. simpl.
    rewrite lookup_insert_ne by done.
    destruct (r !! rps) as [v|]; [|reflexivity].
    destruct (truthy v); [|reflexivity].
    rewrite insert_insert_eq.
    rewrite (save_filter_id (fields t) r) by exact (Hconf pk r Hpk).
    reflexivity.
  - intros pk. rewrite saved_keys. split.
    + intros (r1 & Hr1 & Hs). rewrite lookup_fmap in Hr1.
      destruct (rows t !! pk) as [r|]; simpl in Hr1; [|discriminate].
      injection Hr1 as <-. exists r. split; [reflexivity|].
      unfold saved in *. simpl in *.
      by rewrite lookup_insert_ne in Hs.
    + intros (r & Hr & Hs). eexists. rewrite lookup_fmap, Hr. simpl.
      split; [reflexivity|]. unfold saved in *. simpl in *.
      by rewrite lookup_insert_ne.
Qed.

(** The table after the third operation. *)
Lemma remove_field_step (db : database) (t2 : table) :
  rps ∈ fields t2 →
  database_forwards (RemoveField "state" rps) (<["state" := t2]> db)
  = Return (<["state" :=
      {| fields := filter (λ n, n ≠ rps) (fields t2);
         rows := (λ r : row, delete rps r) <$> rows t2;
         writes := writes t2 |}]> db).
Proof.
  intros Hin. cbn [database_forwards].
  rewrite (lookup_model_Some _ "state" t2) by apply lookup_insert_eq.
  cbn [mbind result_bind]. unfold remove_field.
  rewrite decide_True by exact Hin. cbn [mbind result_bind].
  by rewrite insert_insert_eq.
Qed.

Lemma apply_operations (db : database) :
  apply operations db
  = (database_forwards (AddField "state" al access_level_field) db
     ≫= transform_required_permission_to_see_field)
    ≫= database_forwards (RemoveField "state" rps).
Proof. reflexivity. Qed.

(** The whole migration on a database at schema 0020. *)
Lemma migration_spec (db : database) (t : table) :
  db !! "state" = Some t →
  conforms t →
  rps ∈ fields t →
  al ∉ fields t →
  ∃ t3,
    apply operations db = Return (<["state" := t3]> db)
    ∧ fields t3 = filter (λ n, n ≠ rps) (fields t ++ [al])
    ∧ rows t3
      = (λ r : row, delete rps (<[al := PInt (new_access_level r)]> r))
          <$> rows t.
Proof.
  intros Hdb Hconf Hrps Hal.
  rewrite apply_operations, (add_field_step db t Hdb Hal).
  cbn [mbind result_bind].
  destruct (transform_step db t Hconf Hrps) as (t2 & ws & Htr & Hf2 & Hr2 & _).
  rewrite Htr. cbn [mbind result_bind].
  rewrite remove_field_step.
  2:{ rewrite Hf2. apply elem_of_app. by left. }
  eexists. split; [reflexivity|]. cbn [fields rows].
  rewrite Hf2, Hr2. split; [reflexivity|].
  by rewrite <- map_fmap_compose.
Qed.

Lemma new_access_level_choice (r : row) :
  new_access_level r ∈ (choices access_level_field).*1
  ∧ (0 ≤ new_access_level r ≤ 3)%Z.
Proof.
  unfold new_access_level. destruct (saved (0, r)); (split; [set_solver | lia]).
Qed.

(** The sample databases are at schema 0020. *)
Lemma sample_db_schema_0020 (perm : string) :
  let t := {| fields := state_fields_0020;
              rows := {[ 1 := sample_state 1 "submitted" EmptyString;
                         2 := sample_state 2 "internal" perm ]};
              writes := [] |} in
  sample_db perm !! "state" = Some t
  ∧ conforms t ∧ rps ∈ fields t ∧ al ∉ fields t.
Proof.
  intros t. split; [apply lookup_singleton_eq|]. split; [|split].
  - unfold conforms. apply (bool_decide_unpack _). vm_compute. exact I.
  - apply (bool_decide_unpack _). vm_compute. exact I.
  - apply (bool_decide_unpack _). vm_compute. exact I.
Defined.

(** C1: on a state table at schema 0020, after [AddField] has given
    every row [access_level = 0], the transform step ends normally and
    treats every row by its [required_permission_to_see]: when it is
    truthy the row is saved with [access_level = 1] (and otherwise as it
    was); when it is falsy the row is not saved and stays as it was, so
    its [access_level] is still the default 0. *)
Theorem transform_sets_access_level (db : database) (t : table) :
  db !! "state" = Some t →
  conforms t →
  rps ∈ fields t →
  al ∉ fields t →
  ∃ db1 t1 db2 t2 ws,
    database_forwards (AddField "state" al access_level_field) db = Return db1
    ∧ db1 !! "state" = Some t1
    ∧ transform_required_permission_to_see_field db1 = Return db2
    ∧ db2 !! "state" = Some t2
    ∧ writes t2 = writes t1 ++ ws
    ∧ ∀ pk r1, rows t1 !! pk = Some r1 →
        ∃ v, r1 !! rps = Some v
          ∧ r1 !! al = Some (PInt 0)
          ∧ (truthy v = true →
               pk ∈ ws
               ∧ rows t2 !! pk = Some (<[al := PInt 1]> r1)
               ∧ (<[al := PInt 1]> r1) !! al = Some (PInt 1))
          ∧ (truthy v = false →
               (pk ∉ ws) ∧ rows t2 !! pk = Some r1).
Proof.
  intros Hdb Hconf Hrps Hal.
  destruct (transform_step db t Hconf Hrps)
    as (t2 & ws & Htr & Hf2 & Hr2 & Hw2 & Hws).
  eexists _, _, _, t2, ws.
  split; [exact (add_field_step db t Hdb Hal)|].
  split; [apply lookup_insert_eq|]. split; [exact Htr|].
  split; [apply lookup_insert_eq|]. split; [exact Hw2|].
  cbn [rows]. intros pk r1 H1. rewrite lookup_fmap in H1.
  destruct (rows t !! pk) as [r0|] eqn:H0; simpl in H1; [|discriminate].
  injection H1 as <-.
  assert (Hv : is_Some (r0 !! rps)).
  { apply elem_of_dom. rewrite (Hconf pk r0 H0). by apply elem_of_list_to_set. }
  destruct Hv as [v Hv]. exists v.
  split; [by rewrite lookup_insert_ne|]. split; [apply lookup_insert_eq|].
  assert (Hsv : ∀ k, saved (k, r0) = truthy v).
  { intros k. unfold saved. simpl. by rewrite Hv. }
  assert (Hlk : rows t2 !! pk = Some (<[al := PInt (new_access_level r0)]> r0)).
  { by rewrite Hr2, lookup_fmap, H0. }
  unfold new_access_level in Hlk. rewrite Hsv in Hlk.
  split; intros Htv; rewrite Htv in Hlk.
  - split; [|split; [|apply lookup_insert_eq]].
    + apply Hws. exists r0. split; [exact H0|]. by rewrite Hsv.
    + by rewrite insert_insert_eq.
  - split; [|exact Hlk].
    intros Hin. apply Hws in Hin as (r' & Hr' & Hs').
    rewrite H0 in Hr'. injection Hr' as <-.
    rewrite Hsv in Hs'. congruence.
Qed.

(** The theorem at the sample database whose second state requires
    ["motions.can_manage"]. *)
Lemma transform_sets_access_level_witness :
  let db := sample_db "motions.can_manage" in
  ∃ t, (db !! "state" = Some t ∧ conforms t ∧ rps ∈ fields t ∧ al ∉ fields t)
    ∧ ∃ db1 t1 db2 t2 ws,
        database_forwards (AddField "state" al access_level_field) db
          = Return db1
        ∧ db1 !! "state" = Some t1
        ∧ transform_required_permission_to_see_field db1 = Return db2
        ∧ db2 !! "state" = Some t2
        ∧ writes t2 = writes t1 ++ ws
        ∧ ∀ pk r1, rows t1 !! pk = Some r1 →
            ∃ v, r1 !! rps = Some v
              ∧ r1 !! al = Some (PInt 0)
              ∧ (truthy v = true →
                   pk ∈ ws
                   ∧ rows t2 !! pk = Some (<[al := PInt 1]> r1)
                   ∧ (<[al := PInt 1]> r1) !! al = Some (PInt 1))
              ∧ (truthy v = false →
                   (pk ∉ ws) ∧ rows t2 !! pk = Some r1).
Proof.
  intros db. eexists.
  pose proof (sample_db_schema_0020 "motions.can_manage") as H.
  split; [exact H|].
  destruct H as (H1 & H2 & H3 & H4).
  exact (transform_sets_access_level db _ H1 H2 H3 H4).
Defined.

(** C2: on a database at schema 0020 the migration ends normally, and
    afterwards every state row has an [access_level] that is one of the
    declared choices 0, 1, 2, 3.  No operation leaves another value
    behind: after any number of the operations, an [access_level] found
    in a state row is one of the four. *)
Theorem access_level_in_choices (db : database) :
  schema_0020 db →
  (∃ db' t',
     apply operations db = Return db'
     ∧ db' !! "state" = Some t'
     ∧ ∀ pk r, rows t' !! pk = Some r →
         ∃ n, r !! al = Some (PInt n)
              ∧ n ∈ (choices access_level_field).*1
              ∧ (0 ≤ n ≤ 3)%Z)
  ∧ ∀ k : nat, ∃ dbk tk,
      apply (take k operations) db = Return dbk
      ∧ dbk !! "state" = Some tk
      ∧ ∀ pk r v, rows tk !! pk = Some r → r !! al = Some v →
          ∃ n, v = PInt n ∧ n ∈ (choices access_level_field).*1.
Proof.
  intros (t & Hdb & Hconf & Hrps & Hal).
  destruct (migration_spec db t Hdb Hconf Hrps Hal) as (t3 & Happ & Hf3 & Hr3).
  assert (Hfinal : ∀ pk r, rows t3 !! pk = Some r →
            ∃ n, r !! al = Some (PInt n)
                 ∧ n ∈ (choices access_level_field).*1 ∧ (0 ≤ n ≤ 3)%Z).
  { intros pk r Hr. rewrite Hr3, lookup_fmap in Hr.
    destruct (rows t !! pk) as [r0|]; simpl in Hr; [|discriminate].
    injection Hr as <-. exists (new_access_level r0).
    rewrite lookup_delete_ne by done. rewrite lookup_insert_eq.
    split; [reflexivity|]. apply new_access_level_choice. }
  split.
  { exists (<["state" := t3]> db), t3.
    split; [exact Happ|]. split; [apply lookup_insert_eq | exact Hfinal]. }
  pose proof (add_field_step db t Hdb Hal) as Hadd.
  destruct (transform_step db t Hconf Hrps) as (t2 & ws & Htr & Hf2 & Hr2 & _).
  intros k.
  destruct k as [|[|[|k]]].
  - exists db, t. split; [reflexivity|]. split; [exact Hdb|].
    intros pk r v Hr Hv. exfalso. apply Hal.
    apply (elem_of_list_to_set (C := gset string)).
    rewrite <- (Hconf pk r Hr). apply elem_of_dom. by exists v.
  - eexists _, _. split; [exact Hadd|]. split; [apply lookup_insert_eq|].
    cbn [rows]. intros pk r v Hr Hv. rewrite lookup_fmap in Hr.
    destruct (rows t !! pk) as [r0|]; simpl in Hr; [|discriminate].
    injection Hr as <-. rewrite lookup_insert_eq in Hv. injection Hv as <-.
    exists 0%Z. split; [reflexivity | set_solver].
  - exists (<["state" := t2]> db), t2. split.
    { change (take 2 operations)
        with [AddField "state" al access_level_field;
              RunPython transform_required_permission_to_see_field None].
      unfold apply. cbn [foldl]. cbn [mbind result_bind].
      change (result_bind _ _ ?f ?x) with (x ≫= f). rewrite Hadd.
      cbn [mbind result_bind database_forwards]. exact Htr. }
    split; [apply lookup_insert_eq|].
    intros pk r v Hr Hv. rewrite Hr2, lookup_fmap in Hr.
    destruct (rows t !! pk) as [r0|]; simpl in Hr; [|discriminate].
    injection Hr as <-. rewrite lookup_insert_eq in Hv. injection Hv as <-.
    exists (new_access_level r0). split; [reflexivity|].
    apply new_access_level_choice.
  - exists (<["state" := t3]> db), t3.
    rewrite (take_ge operations (S (S (S k)))) by (simpl; lia).
    split; [exact Happ|]. split; [apply lookup_insert_eq|].
    intros pk r v Hr Hv. destruct (Hfinal pk r Hr) as (n & Hn & Hin & _).
    exists n. split; [congruence | exact Hin].
Qed.


(** The theorem at the sample database whose second state requires
    ["motions.can_see_internal"]. *)
Lemma access_level_in_choices_witness :
  let db := sample_db "motions.can_see_internal" in
  (schema_0020 db)
  ∧ (∃ db' t',
       apply operations db = Return db'
       ∧ db' !! "state" = Some t'
       ∧ ∀ pk r, rows t' !! pk = Some r →
           ∃ n, r !! al = Some (PInt n)
                ∧ n ∈ (choices access_level_field).*1
                ∧ (0 ≤ n ≤ 3)%Z)
  ∧ ∀ k : nat, ∃ dbk tk,
      apply (take k operations) db = Return dbk
      ∧ dbk !! "state" = Some tk
      ∧ ∀ pk r v, rows tk !! pk = Some r → r !! al = Some v →
          ∃ n, v = PInt n ∧ n ∈ (choices access_level_field).*1.
Proof.
  intros db.
  assert (H : schema_0020 db).
  { eexists. exact (sample_db_schema_0020 "motions.can_see_internal"). }
  split; [exact H|]. exact (access_level_in_choices db H).
Defined.

(** A database the third operation has run on has lost the old column. *)
Lemma remove_field_gone (db db' : database) (t' : table) :
  database_forwards (RemoveField "state" rps) db = Return db' →
  db' !! "state" = Some t' →
  (rps ∉ fields t') ∧ ∀ pk r, rows t' !! pk = Some r → r !! rps = None.
Proof.
  cbn [database_forwards]. unfold lookup_model, remove_field.
  destruct (db !! "state") as [t2|]; cbn [mbind result_bind]; [|discriminate].
  destruct (decide (rps ∈ fields t2)); cbn [mbind result_bind]; [|discriminate].
  intros [= <-]. rewrite lookup_insert_eq. intros [= <-]. cbn [fields rows].
  split.
  - intros Hin. apply list_elem_of_filter in Hin as [Hne _]. by apply Hne.
  - intros pk r Hr. rewrite lookup_fmap in Hr.
    destruct (rows t2 !! pk); simpl in Hr; [|discriminate].
    injection Hr as <-. apply lookup_delete_eq.
Qed.

(** Two databases at schema 0020 that the migration maps to one. *)
Lemma migration_not_injective :
  sample_db "motions.can_manage" ≠ sample_db "motions.can_see_internal"
  ∧ ∃ db',
      apply operations (sample_db "motions.can_manage") = Return db'
      ∧ apply operations (sample_db "motions.can_see_internal") = Return db'.
Proof.
  split.
  - intros Heq.
    pose (perm := λ db : database,
            db !! "state" ≫= λ t, rows t !! 2 ≫= λ r : row, r !! rps).
    assert (H : perm (sample_db "motions.can_manage")
                = perm (sample_db "motions.can_see_internal"))
      by (by rewrite Heq).
    vm_compute in H. discriminate H.
  - eexists. split; vm_compute; reflexivity.
Qed.

(** Once an exception is raised, the loop of the transform raises it. *)
Lemma loop_raised (e : exn) (l : list (Z * row)) :
  loop (Raise e) l = Raise e.
Proof. induction l as [|x l IH]; [reflexivity | exact IH]. Qed.

(** The transform reads the old column of every row: where no row has
    it, the first row makes it raise. *)
Lemma transform_reads_column (db : database) (t : table) :
  db !! "state" = Some t →
  map_Forall (λ _ (r : row), r !! rps = None) (rows t) →
  rows t ≠ ∅ →
  raises (transform_required_permission_to_see_field db) AttributeError.
Proof.
  intros Hdb Hnone Hne.
  unfold transform_required_permission_to_see_field, get_model.
  change (lower "State") with "state". rewrite Hdb.
  cbn [mbind result_bind].
  destruct (map_to_list (rows t)) as [|[pk r] l] eqn:Hl.
  { by apply map_to_list_empty_iff in Hl. }
  assert (Hr : rows t !! pk = Some r).
  { apply elem_of_map_to_list. rewrite Hl. by left. }
  cbn [foldl]. cbn [mbind result_bind fst snd].
  unfold transform_state at 2, getattr. rewrite (Hnone pk r Hr).
  cbn [mbind result_bind]. rewrite loop_raised. eexists. reflexivity.
Qed.

(** The operations with the last two exchanged. *)
Lemma removal_before_transform (db : database) (t : table) :
  db !! "state" = Some t →
  rps ∈ fields t →
  al ∉ fields t →
  rows t ≠ ∅ →
  raises
    (apply [ AddField "state" al access_level_field;
             RemoveField "state" rps;
             RunPython transform_required_permission_to_see_field None ] db)
    AttributeError.
Proof.
  intros Hdb Hrps Hal Hne.
  unfold apply. cbn [foldl]. cbn [mbind result_bind].
  change (result_bind _ _ ?f ?x) with (x ≫= f).
  rewrite (add_field_step db t Hdb Hal). cbn [mbind result_bind].
  change (result_bind _ _ ?f ?x) with (x ≫= f).
  rewrite remove_field_step.
  2:{ cbn [fields]. apply elem_of_app. by left. }
  cbn [mbind result_bind database_forwards fields rows writes].
  eapply transform_reads_column.
  - apply lookup_insert_eq.
  - cbn [rows]. intros pk r Hr. rewrite !lookup_fmap in Hr.
    destruct (rows t !! pk); simpl in Hr; [|discriminate].
    injection Hr as <-. apply lookup_delete_eq.
  - cbn [rows]. intros Hempty.
    apply fmap_empty_inv, fmap_empty_inv in Hempty. by apply Hne.
Qed.

(** C3: the migration has exactly three operations, in this order: add
    the integer field [access_level] with default 0, run the transform
    (without reverse code), remove the field
    [required_permission_to_see]; applying it is running the three in
    that order.

    The first operation gives every row the new field with the value
    0.  The transform reads the old field: the row the migration leaves
    is the old row without the old field and with [access_level] 1 if
    the old field was truthy and 0 if not; and the removal has to come
    last, for with the removal before the transform the migration
    raises [AttributeError] on every table that has a row.

    After the migration the old field is gone from the table and from
    every row, and the old database cannot be recovered from the new
    one: no function maps every result of the migration back to the
    database it came from. *)
Theorem operations_order_irreversible :
  operations
  = [ AddField "state" al access_level_field;
      RunPython transform_required_permission_to_see_field None;
      RemoveField "state" rps ]
  ∧ (∀ db,
       apply operations db
       = (database_forwards (AddField "state" al access_level_field) db
          ≫= transform_required_permission_to_see_field)
         ≫= database_forwards (RemoveField "state" rps))
  ∧ (∀ db t,
       db !! "state" = Some t → al ∉ fields t →
       ∃ t1,
         database_forwards (AddField "state" al access_level_field) db
         = Return (<["state" := t1]> db)
         ∧ fields t1 = fields t ++ [al]
         ∧ dom (rows t1) = dom (rows t)
         ∧ ∀ pk r1, rows t1 !! pk = Some r1 → r1 !! al = Some (PInt 0))
  ∧ (∀ db t,
       db !! "state" = Some t → conforms t →
       rps ∈ fields t → al ∉ fields t →
       ∃ t',
         apply operations db = Return (<["state" := t']> db)
         ∧ dom (rows t') = dom (rows t)
         ∧ ∀ pk r, rows t !! pk = Some r →
             ∃ v, r !! rps = Some v
                  ∧ rows t' !! pk
                    = Some (delete rps
                              (<[al := PInt (if truthy v then 1 else 0)]> r)))
  ∧ (∀ db t,
       db !! "state" = Some t →
       rps ∈ fields t → al ∉ fields t → rows t ≠ ∅ →
       raises
         (apply [ AddField "state" al access_level_field;
                  RemoveField "state" rps;
                  RunPython transform_required_permission_to_see_field None ]
            db)
         AttributeError)
  ∧ (∀ db db' t',
       apply operations db = Return db' →
       db' !! "state" = Some t' →
       (rps ∉ fields t') ∧ ∀ pk r, rows t' !! pk = Some r → r !! rps = None)
  ∧ ¬ ∃ g : database → database,
        ∀ db, schema_0020 db →
          ∀ db', apply operations db = Return db' → g db' = db.
Proof.
  split; [reflexivity|]. split; [exact apply_operations|].
  split; [|split; [|split; [|split]]].
  - intros db t Hdb Hal. eexists.
    split; [exact (add_field_step db t Hdb Hal)|]. cbn [fields rows].
    split; [reflexivity|]. split; [apply dom_fmap_L|].
    intros pk r1 Hr. rewrite lookup_fmap in Hr.
    destruct (rows t !! pk); simpl in Hr; [|discriminate].
    injection Hr as <-. apply lookup_insert_eq.
  - intros db t Hdb Hconf Hrps Hal.
    destruct (migration_spec db t Hdb Hconf Hrps Hal) as (t3 & Happ & _ & Hr3).
    exists t3. split; [exact Happ|]. split; [by rewrite Hr3, dom_fmap_L|].
    intros pk r Hr.
    assert (Hv : is_Some (r !! rps)).
    { apply elem_of_dom. rewrite (Hconf pk r Hr).
      by apply elem_of_list_to_set. }
    destruct Hv as [v Hv]. exists v. split; [exact Hv|].
    rewrite Hr3, lookup_fmap, Hr. simpl.
    unfold new_access_level, saved. simpl. by rewrite Hv.
  - intros db t Hdb Hrps Hal Hne.
    exact (removal_before_transform db t Hdb Hrps Hal Hne).
  - intros db db' t' Happ. rewrite apply_operations in Happ.
    destruct (database_forwards _ db ≫= _) as [db2|e];
      cbn [mbind result_bind] in Happ; [|discriminate].
    exact (remove_field_gone db2 db' t' Happ).
  - intros [g Hg].
    destruct migration_not_injective as (Hne & db' & Ha & Hb).
    apply Hne. rewrite <- (Hg _ (ex_intro _ _ (sample_db_schema_0020 _)) db' Ha).
    exact (Hg _ (ex_intro _ _ (sample_db_schema_0020 _)) db' Hb).
Qed.

(** The migration and the exchanged order on the sample database: the
    state that required a permission ends with [access_level] 1, the
    other with 0, and the exchanged order raises. *)
Example operations_on_sample :
  (∃ db' t',
     apply operations (sample_db "motions.can_manage") = Return db'
     ∧ db' !! "state" = Some t'
     ∧ (rows t' !! 1%Z ≫= λ r : row, r !! al) = Some (PInt 0)
     ∧ (rows t' !! 2%Z ≫= λ r : row, r !! al) = Some (PInt 1)
     ∧ (rows t' !! 2%Z ≫= λ r : row, r !! rps) = None)
  ∧ raises
      (apply [ AddField "state" al access_level_field;
               RemoveField "state" rps;
               RunPython transform_required_permission_to_see_field None ]
         (sample_db "motions.can_manage"))
      AttributeError.
Proof.
  split.
  - eexists _, _. split; [by vm_compute|].
    split; [by vm_compute|]. by vm_compute.
  - eexists. by vm_compute.
Qed.

End Migration0021Spec.

(* ===================================================================== *)
(** ** Further properties of migration 0021 *)
(* ===================================================================== *)

Module Migration0021More.
Import Migration0021 Migration0021Spec.

(** Once an exception is raised the loop raises it. *)
Lemma loop_raise (e : exn) (l : list (Z * row)) :
  loop (Raise e) l = Raise e.
Proof. induction l as [|x l IH]; [reflexivity | exact IH]. Qed.

(** A row with all its keys among the columns passes [save] whole. *)
Lemma save_filter_all (fs : list string) (r : row) :
  dom r = list_to_set fs →
  filter (λ kv : string * pyval, kv.1 ∈ fs) r = r.
Proof.
  intros Hdom. apply map_filter_id. intros k x Hk. simpl.
  apply (elem_of_list_to_set (C := gset string)). rewrite <- Hdom.
  apply elem_of_dom. by exists x.
Qed.

(** The migration is a frame around the two columns it names: it keeps
    the primary keys, every other column of every state row, and every
    other model; the rows it leaves conform to the new columns, which
    are the old ones without [required_permission_to_see] and with
    [access_level]. *)
Theorem migration_frame (db : database) :
  schema_0020 db →
  ∃ t t' db',
    db !! "state" = Some t
    ∧ apply operations db = Return db'
    ∧ db' !! "state" = Some t'
    ∧ dom (rows t') = dom (rows t)
    ∧ (∀ pk r r' c,
         rows t !! pk = Some r → rows t' !! pk = Some r' →
         c ≠ rps → c ≠ al → r' !! c = r !! c)
    ∧ (∀ m, m ≠ "state" → db' !! m = db !! m)
    ∧ conforms t'
    ∧ (∀ c, c ∈ fields t' ↔ (c ∈ fields t ∧ c ≠ rps) ∨ c = al).
Proof.
  intros (t & Hdb & Hconf & Hrps & Hal).
  destruct (migration_spec db t Hdb Hconf Hrps Hal) as (t3 & Happ & Hf3 & Hr3).
  exists t, t3, (<["state" := t3]> db).
  split; [exact Hdb|]. split; [exact Happ|].
  split; [apply lookup_insert_eq|].
  assert (Hcols : ∀ c, c ∈ fields t3 ↔ (c ∈ fields t ∧ c ≠ rps) ∨ c = al).
  { intros c. rewrite Hf3, list_elem_of_filter, elem_of_app,
      list_elem_of_singleton.
    split.
    - intros [Hne [Hin| ->]]; [left; by split | by right].
    - intros [[Hin Hne]| ->]; [split; [exact Hne | by left]|].
      split; [discriminate | by right]. }
  split; [by rewrite Hr3, dom_fmap_L|]. split; [|split; [|split]].
  - intros pk r r' c Hr Hr' Hc1 Hc2.
    rewrite Hr3, lookup_fmap, Hr in Hr'. injection Hr' as <-.
    by rewrite lookup_delete_ne, lookup_insert_ne.
  - intros m Hm. by rewrite lookup_insert_ne.
  - intros pk r' Hr'. rewrite Hr3, lookup_fmap in Hr'.
    destruct (rows t !! pk) as [r|] eqn:Hr; simpl in Hr'; [|discriminate].
    injection Hr' as <-. apply set_eq. intros c.
    rewrite elem_of_list_to_set, Hcols, dom_delete_L, dom_insert_L,
      (Hconf pk r Hr).
    rewrite elem_of_difference, elem_of_union, !elem_of_singleton,
      elem_of_list_to_set.
    split.
    + intros [[->|Hin] Hne]; [by right | left; by split].
    + intros [[Hin Hne]| ->]; [split; [by right | exact Hne]|].
      split; [by left | discriminate].
  - exact Hcols.
Qed.


Lemma sample_db_at_0020 (perm : string) : schema_0020 (sample_db perm).
Proof. eexists. exact (sample_db_schema_0020 perm). Defined.

(** The frame at the sample database. *)
Lemma migration_frame_witness :
  let db := sample_db "motions.can_manage" in
  (schema_0020 db)
  ∧ ∃ t t' db',
      db !! "state" = Some t
      ∧ apply operations db = Return db'
      ∧ db' !! "state" = Some t'
      ∧ dom (rows t') = dom (rows t)
      ∧ (∀ pk r r' c,
           rows t !! pk = Some r → rows t' !! pk = Some r' →
           c ≠ rps → c ≠ al → r' !! c = r !! c)
      ∧ (∀ m, m ≠ "state" → db' !! m = db !! m)
      ∧ conforms t'
      ∧ (∀ c, c ∈ fields t' ↔ (c ∈ fields t ∧ c ≠ rps) ∨ c = al).
Proof.
  intros db.
  split; [exact (sample_db_at_0020 _)|].
  exact (migration_frame db (sample_db_at_0020 _)).
Defined.

(** On a table that has both columns the loop body is idempotent. *)
Lemma transformed_idem (fs : list string) (r : row) :
  dom r = list_to_set fs → al ∈ fs →
  transformed fs r
  = match r !! rps with
    | Some v => if truthy v then <[al := PInt 1]> r else r
    | None => r
    end
  ∧ transformed fs (transformed fs r) = transformed fs r.
Proof.
  intros Hdom Hal.
  assert (Hdom1 : dom (<[al := PInt 1]> r) = list_to_set fs).
  { rewrite dom_insert_L, Hdom. apply set_eq. intros c.
    rewrite elem_of_union, elem_of_singleton, elem_of_list_to_set.
    split; [intros [->|H]; assumption | by right]. }
  assert (H1 : transformed fs r
               = match r !! rps with
                 | Some v => if truthy v then <[al := PInt 1]> r else r
                 | None => r
                 end).
  { unfold transformed. destruct (r !! rps) as [v|]; [|reflexivity].
    destruct (truthy v); [|reflexivity]. by apply save_filter_all. }
  split; [exact H1|]. rewrite H1. clear H1.
  destruct (r !! rps) as [v|] eqn:Hv.
  2:{ unfold transformed. by rewrite Hv. }
  destruct (truthy v) eqn:Ht.
  2:{ unfold transformed. by rewrite Hv, Ht. }
  unfold transformed. rewrite lookup_insert_ne, Hv, Ht by done.
  rewrite insert_insert_eq. by apply save_filter_all.
Qed.

(** The transform can be run again: on a state table with both columns
    a second run ends normally and leaves every row as the first run
    left it. *)
Theorem transform_idempotent (db : database) (t : table) :
  db !! "state" = Some t →
  conforms t →
  rps ∈ fields t →
  al ∈ fields t →
  ∃ db1 t1 db2 t2,
    transform_required_permission_to_see_field db = Return db1
    ∧ db1 !! "state" = Some t1
    ∧ transform_required_permission_to_see_field db1 = Return db2
    ∧ db2 !! "state" = Some t2
    ∧ rows t2 = rows t1
    ∧ fields t2 = fields t1.
Proof.
  intros Hdb Hconf Hrps Hal.
  assert (Hhas : ∀ r : row, dom r = list_to_set (fields t) → is_Some (r !! rps)).
  { intros r Hd. apply elem_of_dom. rewrite Hd. by apply elem_of_list_to_set. }
  destruct (transform_spec db t Hdb) as (t1 & Htr1 & Hf1 & _ & Hr1).
  { intros pk r Hr. apply Hhas. exact (Hconf pk r Hr). }
  assert (Hconf1 : ∀ pk r, rows t1 !! pk = Some r →
                           dom r = list_to_set (fields t)).
  { intros pk r1 H1. rewrite Hr1, lookup_fmap in H1.
    destruct (rows t !! pk) as [r|] eqn:Hr; simpl in H1; [|discriminate].
    injection H1 as <-.
    destruct (transformed_idem (fields t) r (Hconf pk r Hr) Hal) as [-> _].
    destruct (r !! rps) as [v|]; [|exact (Hconf pk r Hr)].
    destruct (truthy v); [|exact (Hconf pk r Hr)].
    rewrite dom_insert_L, (Hconf pk r Hr). apply set_eq. intros c.
    rewrite elem_of_union, elem_of_singleton, elem_of_list_to_set.
    split; [intros [->|H]; assumption | by right]. }
  destruct (transform_spec (<["state" := t1]> db) t1)
    as (t2 & Htr2 & Hf2 & _ & Hr2).
  { apply lookup_insert_eq. }
  { intros pk r Hr. apply Hhas. exact (Hconf1 pk r Hr). }
  exists (<["state" := t1]> db), t1, (<["state" := t2]> db), t2.
  split; [exact Htr1|]. split; [apply lookup_insert_eq|].
  split; [by rewrite Htr2, insert_insert_eq|].
  split; [apply lookup_insert_eq|]. split; [|exact Hf2].
  rewrite Hr2, Hr1, Hf1, <- map_fmap_compose.
  apply map_eq. intros pk. rewrite !lookup_fmap.
  destruct (rows t !! pk) as [r|] eqn:Hr; simpl; [|reflexivity].
  f_equal. simpl. exact (proj2 (transformed_idem _ r (Hconf pk r Hr) Hal)).
Qed.

(** The sample table once [access_level] has been added. *)
Lemma transform_idempotent_witness :
  let t := {| fields := state_fields_0020 ++ [al];
              rows := {[ 1 := <[al := PInt 0]>
                                (sample_state 1 "submitted" EmptyString);
                         2 := <[al := PInt 0]>
                                (sample_state 2 "internal" "motions.can_manage") ]};
              writes := [] |} in
  let db : database := {[ "state" := t ]} in
  (db !! "state" = Some t ∧ conforms t ∧ rps ∈ fields t ∧ al ∈ fields t)
  ∧ ∃ db1 t1 db2 t2,
      transform_required_permission_to_see_field db = Return db1
      ∧ db1 !! "state" = Some t1
      ∧ transform_required_permission_to_see_field db1 = Return db2
      ∧ db2 !! "state" = Some t2
      ∧ rows t2 = rows t1
      ∧ fields t2 = fields t1.
Proof.
  intros t db.
  assert (H1 : db !! "state" = Some t) by apply lookup_singleton_eq.
  assert (H2 : conforms t)
    by (unfold conforms; apply (bool_decide_unpack _); vm_compute; exact I).
  assert (H3 : rps ∈ fields t)
    by (apply (bool_decide_unpack _); vm_compute; exact I).
  assert (H4 : al ∈ fields t)
    by (apply (bool_decide_unpack _); vm_compute; exact I).
  split; [by repeat split|].
  exact (transform_idempotent db t H1 H2 H3 H4).
Defined.

(** The transform needs the old column: on a state table without it,
    it raises [AttributeError] at the first row; only an empty table
    passes, unchanged.  So the transform cannot run after the
    [RemoveField] of the migration. *)
Theorem transform_needs_old_column (db : database) (t : table) :
  db !! "state" = Some t →
  conforms t →
  rps ∉ fields t →
  (rows t ≠ ∅ →
   raises (transform_required_permission_to_see_field db) AttributeError)
  ∧ (rows t = ∅ →
     transform_required_permission_to_see_field db = Return db).
Proof.
  intros Hdb Hconf Hrps.
  unfold transform_required_permission_to_see_field, get_model.
  change (lower "State") with "state". rewrite Hdb.
  cbn [mbind result_bind]. split.
  - intros Hne.
    destruct (map_to_list (rows t)) as [|[pk r] l] eqn:Hl.
    { by apply map_to_list_empty_iff in Hl. }
    assert (Hr : rows t !! pk = Some r).
    { apply elem_of_map_to_list. rewrite Hl. by left. }
    assert (Hnone : r !! rps = None).
    { apply not_elem_of_dom. rewrite (Hconf pk r Hr).
      by rewrite elem_of_list_to_set. }
    cbn [foldl]. cbn [mbind result_bind fst snd].
    unfold transform_state at 2, getattr. rewrite Hnone.
    cbn [mbind result_bind].
    rewrite loop_raise. eexists. reflexivity.
  - intros Hempty. rewrite Hempty, map_to_list_empty. cbn [foldl].
    cbn [mbind result_bind]. by rewrite insert_id.
Qed.

(** The sample database after the third operation has dropped the
    column. *)
Lemma transform_needs_old_column_witness :
  let t := {| fields := ["id"; "name"];
              rows := {[ 1 := {[ "id" := PInt 1; "name" := PStr "submitted" ]} ]};
              writes := [] |} in
  let db : database := {[ "state" := t ]} in
  (db !! "state" = Some t ∧ conforms t ∧ rps ∉ fields t)
  ∧ (rows t ≠ ∅ →
     raises (transform_required_permission_to_see_field db) AttributeError)
  ∧ (rows t = ∅ →
     transform_required_permission_to_see_field db = Return db).
Proof.
  intros t db.
  assert (H1 : db !! "state" = Some t) by apply lookup_singleton_eq.
  assert (H2 : conforms t)
    by (unfold conforms; apply (bool_decide_unpack _); vm_compute; exact I).
  assert (H3 : rps ∉ fields t)
    by (apply (bool_decide_unpack _); vm_compute; exact I).
  split; [by repeat split|].
  exact (transform_needs_old_column db t H1 H2 H3).
Defined.

End Migration0021More.

(* ===================================================================== *)
(** ** Properties of the start-up helpers *)
(* ===================================================================== *)

Module MainSpec.
Import Main.

Lemma eq_str_true (v : pyval) (lit : string) :
  eq_str v lit = true ↔ v = PStr lit.
Proof.
  destruct v; simpl; try (split; [discriminate | intros [=]]).
  rewrite String.eqb_eq. split; [by intros -> | by intros [= ->]].
Qed.

Lemma eq_str_false (v : pyval) (lit : string) :
  v ≠ PStr lit → eq_str v lit = false.
Proof.
  intros Hne. destruct (eq_str v lit) eqn:E; [|reflexivity].
  by apply eq_str_true in E.
Qed.

(** C8: [detect_openslides_type] returns one of the three constants,
    which are pairwise different: the Windows portable version exactly
    when the platform is ['win32'] and the lower-cased basename of
    [sys.executable] is ['openslides.exe'], the Windows version for any
    other executable on ['win32'], the Unix version on every other
    platform. *)
Theorem detect_openslides_type_cases (h : host) :
  (detect_openslides_type h = UNIX_VERSION
   ∨ detect_openslides_type h = WINDOWS_VERSION
   ∨ detect_openslides_type h = WINDOWS_PORTABLE_VERSION)
  ∧ (UNIX_VERSION ≠ WINDOWS_VERSION
     ∧ UNIX_VERSION ≠ WINDOWS_PORTABLE_VERSION
     ∧ WINDOWS_VERSION ≠ WINDOWS_PORTABLE_VERSION)
  ∧ (detect_openslides_type h = WINDOWS_PORTABLE_VERSION
     ↔ platform h = "win32"
       ∧ lower (basename (path h) (executable h)) = "openslides.exe")
  ∧ (platform h = "win32" →
     lower (basename (path h) (executable h)) ≠ "openslides.exe" →
     detect_openslides_type h = WINDOWS_VERSION)
  ∧ (platform h ≠ "win32" → detect_openslides_type h = UNIX_VERSION).
Proof.
  unfold detect_openslides_type.
  destruct (String.eqb_spec (platform h) "win32") as [Hp|Hp];
    [destruct (String.eqb_spec (lower (basename (path h) (executable h)))
                 "openslides.exe") as [He|He]|].
  - repeat split; try discriminate; auto; try (intros; congruence).
  - repeat split; try discriminate; auto; try (intros; congruence).
    intros [_ H]. congruence.
  - repeat split; try discriminate; auto; try (intros; congruence).
    intros [H _]. congruence.
Qed.

(** The three deployment targets on sample hosts. *)
Example detect_openslides_type_samples :
  detect_openslides_type unix_host = UNIX_VERSION
  ∧ detect_openslides_type (portable_host tmp_ok) = WINDOWS_PORTABLE_VERSION
  ∧ detect_openslides_type
      (sample_host "win32" "C:\Python27\pythonw.exe" ntpath tmp_ok None None)
    = WINDOWS_VERSION
  ∧ detect_openslides_type
      (sample_host "win32" "C:\Portable\OpenSlides.EXE" ntpath tmp_ok None None)
    = WINDOWS_PORTABLE_VERSION.
Proof. repeat split. Qed.

(** C6: [get_database_path_from_settings] raises
    [DatabaseInSettingsError] exactly when [DATABASES] has no default
    entry or the default entry has no [NAME] or a falsy one; otherwise
    it returns [None] when the default [ENGINE] is not
    ['django.db.backends.sqlite3'] and the [NAME] when it is. *)
Theorem get_database_path_from_settings_spec
    (DATABASES : gmap string (gmap string pyval)) :
  (raises (get_database_path_from_settings DATABASES) DatabaseInSettingsError
   ↔ DATABASES !! "default" = None
     ∨ ∃ d, DATABASES !! "default" = Some d
            ∧ (d !! "NAME" = None
               ∨ ∃ v, d !! "NAME" = Some v ∧ truthy v = false))
  ∧ ∀ d name,
      DATABASES !! "default" = Some d →
      d !! "NAME" = Some name →
      truthy name = true →
      get_database_path_from_settings DATABASES
      = if eq_str (dict_get d "ENGINE") "django.db.backends.sqlite3"
        then Return name
        else Return PNone.
Proof.
  unfold get_database_path_from_settings, DEFAULT_DB_ALIAS, raises.
  destruct (DATABASES !! "default") as [d|] eqn:Hd.
  2:{ split; [|discriminate]. split; [by left | by eexists]. }
  case_bool_decide as Hempty.
  { subst d. split.
    - split; [|by eexists]. intros _. right. exists ∅.
      split; [reflexivity|]. left. apply lookup_empty.
    - intros d name [= <-] Hn. by rewrite lookup_empty in Hn. }
  unfold dict_get.
  destruct (d !! "NAME") as [v|] eqn:Hv; simpl.
  2:{ split.
      - split; [|by eexists]. intros _. right. exists d.
        split; [reflexivity|]. by left.
      - intros d' name [= <-]. by rewrite Hv. }
  destruct (truthy v) eqn:Ht; simpl.
  - split.
    + split.
      * intros [msg H]. by destruct (eq_str _ _).
      * intros [H|(d' & [= <-] & [H|(v' & H & Hf)])]; try discriminate;
          rewrite Hv in H; [discriminate|]. injection H as <-. congruence.
    + intros d' name [= <-]. rewrite Hv. intros [= <-] _.
      by destruct (eq_str _ _).
  - split.
    + split; [|by eexists]. intros _. right. exists d.
      split; [reflexivity|]. right. by exists v.
    + intros d' name [= <-]. rewrite Hv. intros [= <-]. congruence.
Qed.


Ltac unfold_io :=
  unfold try_finally, try_except, try_except_else, socket_call, raise, lift,
    mbind, io_bind, mret, io_ret in *.

(** The claim of C4 for a bind that succeeds fails where the following
    [listen] raises [socket.error]: the bind to port 80 succeeds and
    [get_port] returns 8000, not 80. *)
Lemma get_port_bound_not_80 :
  let h := sample_host "linux2" "/usr/bin/python" posixpath tmp_denied
             None (Some address_in_use) in
  bind_outcome h "0.0.0.0" 80 = None
  ∧ (get_port h "0.0.0.0" 80 sample_world).1 = Return 8000%Z
  ∧ (get_port h "0.0.0.0" 80 sample_world).1 ≠ Return 80%Z
  ∧ calls (get_port h "0.0.0.0" 80 sample_world).2
    = [EvSocket; EvBind "0.0.0.0" 80; EvListen (-1); EvClose].
Proof. repeat split. discriminate. Qed.

(** C4, amended: for every port other than 80, [get_port] returns the
    port and leaves the world as it is (no socket is created, no bind
    attempted).  For port 80, once the socket is created: it returns
    8000 when the bind raises [socket.error], and also when the bind
    succeeds and the following [listen] raises it; it returns 80 when
    bind and listen both succeed.  The socket is closed in each case. *)
Theorem get_port_spec (h : host) (address : string) (port : Z) (w : world) :
  (port ≠ 80%Z → get_port h address port w = (Return port, w))
  ∧ (∀ e,
       socket_outcome h = None →
       bind_outcome h address 80 = Some e →
       caught_by e SocketError = true →
       get_port h address 80 w
       = (Return 8000%Z,
          log EvClose (log (EvBind address 80) (log EvSocket w))))
  ∧ (∀ e,
       socket_outcome h = None →
       bind_outcome h address 80 = None →
       listen_outcome h address 80 = Some e →
       caught_by e SocketError = true →
       get_port h address 80 w
       = (Return 8000%Z,
          log EvClose
            (log (EvListen (-1))
               (log (EvBind address 80) (log EvSocket w)))))
  ∧ (socket_outcome h = None →
     bind_outcome h address 80 = None →
     listen_outcome h address 80 = None →
     get_port h address 80 w
     = (Return 80%Z,
        log EvClose
          (log (EvListen (-1))
             (log (EvBind address 80) (log EvSocket w))))).
Proof.
  split; [|split; [|split]].
  - intros Hne. unfold get_port.
    destruct (Z.eqb_spec port 80); [contradiction | reflexivity].
  - intros e Hs Hb Hc. unfold get_port. simpl. unfold_io.
    rewrite Hs, Hb, Hc. reflexivity.
  - intros e Hs Hb Hl Hc. unfold get_port. simpl. unfold_io.
    rewrite Hs, Hb, Hl, Hc. reflexivity.
  - intros Hs Hb Hl. unfold get_port. simpl. unfold_io.
    rewrite Hs, Hb, Hl. reflexivity.
Qed.

(** C5: provided [tempfile.mkstemp] itself raises no
    [PortableDirNotWritable], [get_win32_portable_path] raises it
    exactly when creating a temporary file in the directory of
    [sys.executable] raises [OSError]; when the file is created, the
    function closes its descriptor, deletes the file and returns the
    directory. *)
Theorem get_win32_portable_path_spec (h : host) (w : world) :
  (∀ dir e, mkstemp_outcome h dir = Raise e →
            exc_type e ≠ PortableDirNotWritable) →
  let raw := Bytes (dirname (path h) (abspath (path h) (executable h))) in
  (raises (get_win32_portable_path h w).1 PortableDirNotWritable
   ↔ ∃ dir e, filesystem2unicode h raw = Return dir
              ∧ mkstemp_outcome h dir = Raise e
              ∧ caught_by e OSError = true)
  ∧ ∀ dir fd test_file,
      filesystem2unicode h raw = Return dir →
      mkstemp_outcome h dir = Return (fd, test_file) →
      (get_win32_portable_path h w).1 = Return dir
      ∧ fds (get_win32_portable_path h w).2 = ({[fd]} ∪ fds w) ∖ {[fd]}
      ∧ (fd ∉ fds (get_win32_portable_path h w).2)
      ∧ fs (get_win32_portable_path h w).2 = delete test_file (fs w)
      ∧ fs (get_win32_portable_path h w).2 !! test_file = None.
Proof.
  intros Hlib raw. unfold get_win32_portable_path, raises. fold raw.
  unfold_io.
  destruct (filesystem2unicode h raw) as [dir|e0] eqn:Hdir.
  2:{ split.
      - split.
        + unfold raw, filesystem2unicode in Hdir.
          destruct (fs_decode h _); [discriminate|].
          injection Hdir as <-. intros [msg [=]].
        + intros (d & e & [=] & _).
      - intros d fd f [=]. }
  unfold mkstemp.
  destruct (mkstemp_outcome h dir) as [[fd name]|e] eqn:Hmk.
  - assert (Hclose : os_close fd
              (set_fds (λ s, {[fd]} ∪ s)
                 (set_fs (insert name (File EmptyString)) w))
            = (Return (),
               set_fds (λ s, s ∖ {[fd]})
                 (set_fds (λ s, {[fd]} ∪ s)
                    (set_fs (insert name (File EmptyString)) w)))).
    { unfold os_close. rewrite decide_True; [reflexivity|].
      simpl. set_solver. }
    rewrite Hclose. unfold os_unlink. simpl. rewrite lookup_insert_eq. simpl.
    split.
    + split; [intros [msg [=]]|].
      intros (d & e & [= <-] & He & _). congruence.
    + intros d fd' f [= <-]. rewrite Hmk. intros [= <- <-].
      rewrite delete_insert_eq.
      repeat split; [|apply lookup_delete_eq].
      intros [_ Hn]%elem_of_difference. apply Hn. by apply elem_of_singleton.
  - destruct (caught_by e OSError) eqn:Hc; simpl.
    + split; [|intros d fd f [= <-]; congruence].
      split; [|by eexists]. intros _. exists dir, e. by rewrite Hmk.
    + split; [|intros d fd f [= <-]; congruence]. split.
      * intros [msg [= H]]. exfalso. apply (Hlib dir e Hmk). by rewrite H.
      * intros (d & e' & [= <-] & He & Hc'). congruence.
Qed.


(** The theorem on the portable sample host, where the temporary file
    can be created. *)
Lemma get_win32_portable_path_spec_witness :
  let h := portable_host tmp_ok in
  (∀ dir e, mkstemp_outcome h dir = Raise e →
            exc_type e ≠ PortableDirNotWritable)
  ∧ (get_win32_portable_path h sample_world).1 = Return "C:\OpenSlides"
  ∧ fs (get_win32_portable_path h sample_world).2
    = delete "C:\OpenSlides\tmpk3x9qa" (fs sample_world)
  ∧ (3%Z ∉ fds (get_win32_portable_path h sample_world).2).
Proof.
  intros h.
  assert (Hlib : ∀ dir e, mkstemp_outcome h dir = Raise e →
                          exc_type e ≠ PortableDirNotWritable)
    by (intros dir e; discriminate).
  split; [exact Hlib|].
  destruct (get_win32_portable_path_spec h sample_world Hlib) as [_ Hok].
  destruct (Hok "C:\OpenSlides" 3%Z "C:\OpenSlides\tmpk3x9qa"
              eq_refl eq_refl) as (Hr & _ & Hfd & Hfs & _).
  split; [exact Hr|]. split; [exact Hfs | exact Hfd].
Defined.

(** On the portable sample host with a directory that is not writable
    the named exception is raised. *)
Example get_win32_portable_path_denied :
  raises (get_win32_portable_path (portable_host tmp_denied) sample_world).1
    PortableDirNotWritable.
Proof. eexists. reflexivity. Qed.

(** The claim of C10 for the Unix version fails where the config home
    cannot be decoded with the filesystem encoding: in the C locale,
    with a byte above 127 in [XDG_CONFIG_HOME],
    [get_default_settings_path] raises [UnicodeDecodeError] and returns
    no path. *)
Lemma default_settings_path_undecodable :
  environ latin1_world !! "XDG_CONFIG_HOME" = Some latin1_config_home
  ∧ raises
      (get_default_settings_path c_locale_host (PStr UNIX_VERSION)
         latin1_world).1
      UnicodeDecodeError
  ∧ (get_default_settings_path c_locale_host (PStr UNIX_VERSION)
       latin1_world).1
    ≠ Return (join (path c_locale_host) latin1_config_home
                ["openslides"; "settings.py"]).
Proof.
  split; [by vm_compute|]. split.
  - eexists. by vm_compute.
  - vm_compute. discriminate.
Qed.

(** C10, amended: for an argument that is none of the three version
    constants, [get_default_settings_path] and
    [get_default_user_data_path] raise [TypeError].  For the Unix
    version the config home is [XDG_CONFIG_HOME] if it is set and
    [~/.config] otherwise, decoded with the filesystem encoding: when
    it can be decoded, [get_default_settings_path] returns its join
    with ['openslides'] and ['settings.py']; when it cannot, the
    function raises [UnicodeDecodeError].  The world is unchanged in
    both cases. *)
Theorem default_paths_spec (h : host) (w : world) (openslides_type : pyval) :
  (openslides_type ≠ PStr UNIX_VERSION →
   openslides_type ≠ PStr WINDOWS_VERSION →
   openslides_type ≠ PStr WINDOWS_PORTABLE_VERSION →
   raises (get_default_settings_path h openslides_type w).1 TypeError
   ∧ raises (get_default_user_data_path h openslides_type w).1 TypeError)
  ∧ (∀ config_home,
       filesystem2unicode h
         (Bytes (default (join (path h) (home h) [".config"])
                   (environ w !! "XDG_CONFIG_HOME")))
       = Return config_home →
       get_default_settings_path h (PStr UNIX_VERSION) w
       = (Return (join (path h) config_home ["openslides"; "settings.py"]),
          w))
  ∧ (∀ config_home,
       fs_decode h (default (join (path h) (home h) [".config"])
                      (environ w !! "XDG_CONFIG_HOME"))
       = Some config_home →
       get_default_settings_path h (PStr UNIX_VERSION) w
       = (Return (join (path h) config_home ["openslides"; "settings.py"]),
          w))
  ∧ (fs_decode h (default (join (path h) (home h) [".config"])
                    (environ w !! "XDG_CONFIG_HOME"))
     = None →
     raises (get_default_settings_path h (PStr UNIX_VERSION) w).1
       UnicodeDecodeError
     ∧ (get_default_settings_path h (PStr UNIX_VERSION) w).2 = w).
Proof.
  split; [|split; [|split]].
  - intros H1 H2 H3.
    unfold get_default_settings_path, get_default_user_data_path.
    rewrite !(eq_str_false _ _ H1), !(eq_str_false _ _ H2),
      !(eq_str_false _ _ H3).
    split; eexists; reflexivity.
  - intros config_home Hc. unfold get_default_settings_path.
    change (eq_str (PStr UNIX_VERSION) UNIX_VERSION) with true.
    cbn iota. unfold environ_get. unfold_io. by rewrite Hc.
  - intros config_home Hc. unfold get_default_settings_path.
    change (eq_str (PStr UNIX_VERSION) UNIX_VERSION) with true.
    cbn iota. unfold environ_get, filesystem2unicode. unfold_io.
    by rewrite Hc.
  - intros Hc. unfold get_default_settings_path.
    change (eq_str (PStr UNIX_VERSION) UNIX_VERSION) with true.
    cbn iota. unfold environ_get, filesystem2unicode. unfold_io.
    rewrite Hc. split; [eexists|]; reflexivity.
Qed.

(** The two cases on the Unix sample host: an integer argument, and
    the Unix version with and without [XDG_CONFIG_HOME]. *)
Example default_paths_samples :
  raises (get_default_settings_path unix_host (PInt 3) sample_world).1
    TypeError
  ∧ raises (get_default_user_data_path unix_host PNone sample_world).1
      TypeError
  ∧ (get_default_settings_path unix_host (PStr UNIX_VERSION) sample_world).1
    = Return "/home/alice/.config/openslides/settings.py"
  ∧ (get_default_settings_path unix_host (PStr UNIX_VERSION)
       {| fs := ∅; fds := ∅;
          environ := {[ "XDG_CONFIG_HOME" := "/etc/xdg" ]};
          stdout := []; calls := [] |}).1
    = Return "/etc/xdg/openslides/settings.py".
Proof.
  split; [eexists; reflexivity|]. split; [eexists; reflexivity|].
  split; reflexivity.
Qed.

(** [write_settings] ends normally only with the file written. *)
Lemma write_settings_writes (h : host) (p : string) (template : option string)
    (context : gmap string string) (w w' : world) :
  write_settings h p template context w = (Return (), w') →
  ∃ content, fs w' !! p = Some (File content) ∧ stdout w' = stdout w.
Proof.
  unfold write_settings. unfold_io.
  set (tpl := match template with None => _ | Some t => _ end).
  destruct (tpl w) as [[t|e] w1] eqn:Htpl; [|discriminate].
  assert (Hw1 : w1 = w).
  { unfold tpl in Htpl. destruct template.
    - by injection Htpl as _ <-.
    - unfold read_file in Htpl.
      destruct (fs w !! _) as [[c|]|]; by injection Htpl. }
  subst w1.
  destruct (format h t _) as [content|e]; [|discriminate].
  unfold exists_. simpl.
  set (m := realpath (path h) (dirname (path h) p)).
  assert (Hmk : ∃ w2, (if negb (bool_decide (is_Some (fs w !! m)))
                       then os_makedirs m else λ w0, (Return (), w0)) w
                      = (Return (), w2) ∧ stdout w2 = stdout w).
  { case_bool_decide as Hm; simpl.
    - by eexists.
    - unfold os_makedirs. destruct (fs w !! m); [exfalso; by apply Hm|].
      by eexists. }
  destruct Hmk as (w2 & -> & Hout).
  unfold write_file. destruct (fs w2 !! p) as [[c|]|]; try discriminate;
    intros [= <-]; exists content; simpl; by rewrite lookup_insert_eq.
Qed.

(** C7: [ensure_settings] leaves the world as it is (no file written,
    nothing printed) when the settings path is empty or something
    exists at it, so an existing file is unchanged; the file system
    changes only when the path is non-empty and nothing exists at it;
    and in that case a normal return leaves a file at the path. *)
Theorem ensure_settings_guard (h : host) (settings : pyval)
    (args : gmap string pyval) (w : world) :
  ((truthy settings = false
    ∨ ∃ p, settings = PStr p ∧ is_Some (fs w !! p)) →
   ensure_settings h settings args w = (Return (), w))
  ∧ (fs (ensure_settings h settings args w).2 ≠ fs w →
     ∃ p, settings = PStr p ∧ p ≠ EmptyString ∧ fs w !! p = None)
  ∧ ∀ p,
      settings = PStr p → p ≠ EmptyString → fs w !! p = None →
      (ensure_settings h settings args w).1 = Return () →
      ∃ content,
        fs (ensure_settings h settings args w).2 !! p = Some (File content).
Proof.
  assert (Hguard : (truthy settings = false
                    ∨ ∃ p, settings = PStr p ∧ is_Some (fs w !! p)) →
                   ensure_settings h settings args w = (Return (), w)).
  { intros [Hf|(p & -> & Hex)]; unfold ensure_settings.
    - by rewrite Hf.
    - destruct (truthy (PStr p)); [|reflexivity].
      unfold as_path, exists_. unfold_io.
      by rewrite bool_decide_eq_true_2. }
  split; [exact Hguard|]. split.
  - intros Hchg. destruct settings as [|b|n|p].
    + exfalso. apply Hchg. by rewrite Hguard by (by left).
    + exfalso. apply Hchg. unfold ensure_settings. by destruct b.
    + exfalso. apply Hchg. unfold ensure_settings.
      by destruct (truthy (PInt n)).
    + exists p. split; [reflexivity|].
      destruct (fs w !! p) as [nd|] eqn:Hp.
      { exfalso. apply Hchg. rewrite Hguard; [reflexivity|].
        right. exists p. by rewrite Hp. }
      split; [|reflexivity]. intros ->. apply Hchg.
      by rewrite Hguard by (by left).
  - intros p -> Hne Hp. unfold ensure_settings.
    assert (Ht : truthy (PStr p) = true).
    { simpl. by apply negb_true_iff, String.eqb_neq. }
    rewrite Ht. unfold as_path, exists_. unfold_io.
    rewrite bool_decide_eq_false_2 by (rewrite Hp; by intros [? [=]]).
    simpl.
    set (ctx := match args !! "user_data_path" with None => _ | Some v => _ end).
    destruct (ctx w) as [[c|e] w1]; [|discriminate].
    destruct (write_settings h p None c w1) as [[[]|e] w2] eqn:Hws;
      [|discriminate].
    intros _. unfold print. simpl.
    destruct (write_settings_writes _ _ _ _ _ _ Hws) as (content & Hc & _).
    by exists content.
Qed.

(** On the Unix sample host, [ensure_settings] creates a missing
    settings file from the template and reports it; a second call finds
    the file and does nothing. *)
Example ensure_settings_sample :
  let run := ensure_settings unix_host (PStr "/etc/openslides/settings.py") ∅ in
  (run sample_world).1 = Return ()
  ∧ fs (run sample_world).2 !! "/etc/openslides/settings.py"
    = Some (File "# settings for OpenSlides")
  ∧ stdout (run sample_world).2
    = ["Settings file at /etc/openslides/settings.py successfully created."]
  ∧ run (run sample_world).2 = (Return (), (run sample_world).2).
Proof. vm_compute. repeat split. Qed.

End MainSpec.

(* ===================================================================== *)
(** ** Further properties of the start-up helpers *)
(* ===================================================================== *)

Module MainMore.
Import Main MainSpec.

(** *** Port and browser URL *)

(** [get_port] closes every socket it creates and returns nothing but
    the given port or 8000.  If the socket cannot be created the
    exception reaches the caller and no bind is attempted; an exception
    of bind or listen that is not a [socket.error] reaches the caller
    after the socket is closed. *)
Theorem get_port_closes (h : host) (address : string) (port : Z) (w : world) :
  (∀ v, (get_port h address port w).1 = Return v → v = port ∨ v = 8000%Z)
  ∧ (∀ e, socket_outcome h = Some e →
       get_port h address 80 w = (Raise e, log EvSocket w))
  ∧ (socket_outcome h = None →
     ∃ between,
       calls (get_port h address 80 w).2
       = calls w ++ EvSocket :: EvBind address 80 :: between ++ [EvClose])
  ∧ (∀ e, socket_outcome h = None →
       bind_outcome h address 80 = Some e →
       caught_by e SocketError = false →
       get_port h address 80 w
       = (Raise e, log EvClose (log (EvBind address 80) (log EvSocket w))))
  ∧ (∀ e, socket_outcome h = None →
       bind_outcome h address 80 = None →
       listen_outcome h address 80 = Some e →
       caught_by e SocketError = false →
       get_port h address 80 w
       = (Raise e,
          log EvClose
            (log (EvListen (-1))
               (log (EvBind address 80) (log EvSocket w))))).
Proof.
  split; [|split; [|split; [|split]]].
  - intros v. unfold get_port.
    destruct (Z.eqb_spec port 80) as [->|Hne]; [|intros [= <-]; by left].
    simpl. unfold_io.
    destruct (socket_outcome h); [discriminate|].
    destruct (bind_outcome h address 80) as [e|].
    { destruct (caught_by e SocketError); simpl; [|discriminate].
      intros [= <-]. by right. }
    destruct (listen_outcome h address 80) as [e|].
    { destruct (caught_by e SocketError); simpl; [|discriminate].
      intros [= <-]. by right. }
    simpl. intros [= <-]. by left.
  - intros e Hs. unfold get_port. simpl. unfold_io. by rewrite Hs.
  - intros Hs. unfold get_port. simpl. unfold_io. rewrite Hs.
    destruct (bind_outcome h address 80) as [e|].
    { exists []. destruct (caught_by e SocketError); simpl;
        by rewrite <- !app_assoc. }
    destruct (listen_outcome h address 80) as [e|].
    { exists [EvListen (-1)]. destruct (caught_by e SocketError); simpl;
        by rewrite <- !app_assoc. }
    exists [EvListen (-1)]. simpl. by rewrite <- !app_assoc.
  - intros e Hs Hb Hc. unfold get_port. simpl. unfold_io.
    by rewrite Hs, Hb, Hc.
  - intros e Hs Hb Hl Hc. unfold get_port. simpl. unfold_io.
    by rewrite Hs, Hb, Hl, Hc.
Qed.

Lemma append_cons (c : ascii) (s1 s2 : string) :
  String c s1 +:+ s2 = String c (s1 +:+ s2).
Proof. reflexivity. Qed.

Lemma append_nil_r (s : string) : s +:+ EmptyString = s.
Proof.
  induction s as [|c s IH]; [reflexivity|]. by rewrite append_cons, IH.
Qed.

Lemma append_assoc (s1 s2 s3 : string) :
  (s1 +:+ s2) +:+ s3 = s1 +:+ (s2 +:+ s3).
Proof.
  induction s1 as [|c s1 IH]; [reflexivity|]. by rewrite !append_cons, IH.
Qed.

(** [get_browser_url] tells ports apart and names the wildcard address
    [0.0.0.0] as [localhost]: for one address two ports give the same
    URL only if they are equal, port 80 gives the URL without a port,
    and the URL of the wildcard address is that of [localhost]. *)
Theorem get_browser_url_ports (address : string) (p q : Z) :
  (get_browser_url address p = get_browser_url address q ↔ p = q)
  ∧ get_browser_url "0.0.0.0" p = get_browser_url "localhost" p
  ∧ (address ≠ "0.0.0.0" →
     get_browser_url address 80 = "http://" +:+ address
     ∧ (p ≠ 80%Z →
        get_browser_url address p
        = "http://" +:+ address +:+ ":" +:+ pretty p)).
Proof.
  split; [|split].
  - split; [|by intros ->]. unfold get_browser_url.
    set (base := if String.eqb address "0.0.0.0" then _ else _).
    destruct (Z.eqb_spec p 80) as [->|Hp], (Z.eqb_spec q 80) as [->|Hq];
      simpl; [done|..].
    + rewrite <- (append_nil_r base) at 1.
      intros H%(inj (String.app base)). discriminate.
    + rewrite <- (append_nil_r base) at 2.
      intros H%(inj (String.app base)). discriminate.
    + intros H%(inj (String.app base)). injection H as H.
      by apply (inj pretty).
  - reflexivity.
  - intros Hne. unfold get_browser_url.
    apply String.eqb_neq in Hne. rewrite Hne. split; [reflexivity|].
    intros Hp. apply Z.eqb_neq in Hp. rewrite Hp. simpl.
    apply append_assoc.
Qed.


(** *** The settings module *)

Lemma split_nonempty (sep : ascii) (s : string) : split sep s ≠ [].
Proof.
  induction s as [|c s IH]; [discriminate|]. simpl.
  destruct (Ascii.eqb c sep); [discriminate|].
  destruct (split sep s); [contradiction | discriminate].
Qed.

Lemma str_join_cons (sep piece : string) (c : ascii) (rest : list string) :
  str_join sep (String c piece :: rest) = String c (str_join sep (piece :: rest)).
Proof. destruct rest; reflexivity. Qed.

Lemma str_join_two (sep x y : string) (rest : list string) :
  str_join sep (x :: y :: rest) = x +:+ sep +:+ str_join sep (y :: rest).
Proof. reflexivity. Qed.

(** Splitting a string at a separator and joining the pieces with it
    gives the string back. *)
Theorem str_join_split (sep : ascii) (s : string) :
  str_join (String sep EmptyString) (split sep s) = s.
Proof.
  induction s as [|c s IH]; [reflexivity|]. simpl split.
  destruct (Ascii.eqb_spec c sep) as [->|Hne].
  - destruct (split sep s) as [|piece rest] eqn:Hs.
    { by apply split_nonempty in Hs. }
    rewrite str_join_two, IH. reflexivity.
  - destruct (split sep s) as [|piece rest] eqn:Hs.
    { by apply split_nonempty in Hs. }
    by rewrite str_join_cons, IH.
Qed.

Lemma has_dot_cons (c : ascii) (s : string) :
  has_dot (String c s) = Ascii.eqb "." c || has_dot s.
Proof. reflexivity. Qed.

Lemma split_no_dot (s : string) :
  has_dot s = false → split "." s = [s].
Proof.
  induction s as [|c s IH]; [reflexivity|].
  rewrite has_dot_cons. intros [Hc Hs]%orb_false_elim. simpl.
  rewrite Ascii.eqb_sym, Hc, (IH Hs). reflexivity.
Qed.

Lemma split_app (sep : ascii) (s1 s2 : string) :
  split sep (s1 +:+ String sep s2) = split sep s1 ++ split sep s2.
Proof.
  induction s1 as [|c s1 IH].
  - change (EmptyString +:+ String sep s2) with (String sep s2).
    simpl. by rewrite Ascii.eqb_refl.
  - rewrite append_cons. simpl. rewrite IH.
    destruct (Ascii.eqb c sep); [reflexivity|].
    destruct (split sep s1) as [|piece rest] eqn:Hs; [|reflexivity].
    by apply split_nonempty in Hs.
Qed.

(** The module name [setup_django_settings_module] derives from a file
    name [stem.ext]: the part before the last dot. *)
Lemma settings_module_name (stem ext : string) :
  has_dot ext = false →
  str_join "." (removelast (split "." (stem +:+ "." +:+ ext))) = stem.
Proof.
  intros Hext.
  change (stem +:+ "." +:+ ext) with (stem +:+ String "." ext).
  rewrite split_app, (split_no_dot ext Hext), removelast_last.
  apply (str_join_split ".").
Qed.

(** [setup_django_settings_module] on a settings file [stem.ext] (the
    extension without a dot): if the stem has a dot it raises
    [ImproperlyConfigured] and changes nothing; otherwise it puts the
    directory of the file in front of [sys.path] and sets
    [DJANGO_SETTINGS_MODULE] to the stem, and nothing else.  For a file
    name without any dot the module name is the empty string. *)
Theorem setup_django_settings_module_spec (h : host) (settings_path : string)
    (sys_path : list string) (w : world) :
  (∀ stem ext,
     basename (path h) settings_path = stem +:+ "." +:+ ext →
     has_dot ext = false →
     setup_django_settings_module h settings_path sys_path w
     = if has_dot stem
       then ImproperlyConfigured
              "'.' is not an allowed character in the settings-file"
       else Configured (dirname (path h) settings_path :: sys_path)
              {| fs := fs w; fds := fds w;
                 environ := <["DJANGO_SETTINGS_MODULE" := stem]> (environ w);
                 stdout := stdout w; calls := calls w |})
  ∧ (has_dot (basename (path h) settings_path) = false →
     setup_django_settings_module h settings_path sys_path w
     = Configured (dirname (path h) settings_path :: sys_path)
         {| fs := fs w; fds := fds w;
            environ :=
              <["DJANGO_SETTINGS_MODULE" := EmptyString]> (environ w);
            stdout := stdout w; calls := calls w |}).
Proof.
  split.
  - intros stem ext Hb Hext. unfold setup_django_settings_module.
    rewrite Hb, (settings_module_name stem ext Hext).
    destruct (has_dot stem); reflexivity.
  - intros Hno. unfold setup_django_settings_module.
    rewrite (split_no_dot _ Hno). reflexivity.
Qed.

(** On the Unix sample host: [settings.py] is accepted as module
    [settings], [my.settings.py] is refused. *)
Example setup_django_settings_module_samples :
  (∃ w', setup_django_settings_module unix_host "/etc/openslides/settings.py"
           ["/usr/lib/python2.7"] sample_world
         = Configured ["/etc/openslides"; "/usr/lib/python2.7"] w'
         ∧ environ w' !! "DJANGO_SETTINGS_MODULE" = Some "settings")
  ∧ setup_django_settings_module unix_host "/etc/openslides/my.settings.py"
      [] sample_world
    = ImproperlyConfigured
        "'.' is not an allowed character in the settings-file".
Proof. split; [eexists; split; reflexivity | reflexivity]. Qed.


(** *** Footprints of the path functions *)

Lemma quiet_refl (w : world) : quiet w w.
Proof. by repeat split. Qed.

Lemma quiet_trans (w1 w2 w3 : world) :
  quiet w1 w2 → quiet w2 w3 → quiet w1 w3.
Proof.
  intros (Ho & He & Hc & Hf) (Ho' & He' & Hc' & Hf').
  repeat split; [congruence.. | by etrans].
Qed.

Lemma readonly_refl (w : world) : readonly w w.
Proof. split; [apply quiet_refl | reflexivity]. Qed.

Lemma readonly_trans (w1 w2 w3 : world) :
  readonly w1 w2 → readonly w2 w3 → readonly w1 w3.
Proof.
  intros [Hq Hs] [Hq' Hs']. split; [by eapply quiet_trans | by etrans].
Qed.

Section respects.
Context (R : world → world → Prop).
Hypothesis R_refl : ∀ w, R w w.
Hypothesis R_trans : ∀ w1 w2 w3, R w1 w2 → R w2 w3 → R w1 w3.

Lemma respects_ret {A} (a : A) : respects R (mret a).
Proof using R_refl. intros w. apply R_refl. Qed.

Lemma respects_raise {A} (c : exc_class) (msg : string) :
  respects R (raise (A := A) c msg).
Proof using R_refl. intros w. apply R_refl. Qed.

Lemma respects_lift {A} (r : result A) : respects R (lift r).
Proof using R_refl. intros w. apply R_refl. Qed.

Lemma respects_bind {A B} (m : io A) (f : A → io B) :
  respects R m → (∀ a, respects R (f a)) → respects R (m ≫= f).
Proof using R_trans.
  intros Hm Hf w. specialize (Hm w). unfold mbind, io_bind.
  destruct (m w) as [[a|e] w1]; [|exact Hm].
  exact (R_trans _ _ _ Hm (Hf a w1)).
Qed.

Lemma respects_environ_get (key fallback : string) :
  respects R (environ_get key fallback).
Proof using R_refl. intros w. apply R_refl. Qed.

Lemma respects_exists (p : string) : respects R (exists_ p).
Proof using R_refl. intros w. apply R_refl. Qed.

Lemma respects_read_file (p : string) : respects R (read_file p).
Proof using R_refl.
  intros w. unfold read_file. destruct (fs w !! p) as [[c|]|]; apply R_refl.
Qed.

Lemma respects_app_data (h : host) : respects R (get_win32_app_data_path h).
Proof using R_refl.
  intros w. unfold get_win32_app_data_path.
  destruct (shell32 h) as [[res buf]|]; [|apply R_refl].
  destruct (negb _); apply R_refl.
Qed.
End respects.

(** What [get_win32_portable_path] does in each case. *)
Lemma get_win32_portable_path_cases (h : host) (w : world) :
  get_win32_portable_path h w
  = match filesystem2unicode h
            (Bytes (dirname (path h) (abspath (path h) (executable h)))) with
    | Raise e => (Raise e, w)
    | Return dir =>
        match mkstemp_outcome h dir with
        | Return (fd, name) =>
            (Return dir,
             set_fs (delete name)
               (set_fds (λ s, s ∖ {[fd]})
                  (set_fds (λ s, {[fd]} ∪ s)
                     (set_fs (insert name (File EmptyString)) w))))
        | Raise e =>
            if caught_by e OSError
            then (Raise (Exc PortableDirNotWritable
                    ("Portable directory is not writeable. "
                       +:+ "Please choose another directory for settings and data files.")),
                  w)
            else (Raise e, w)
        end
    end.
Proof.
  unfold get_win32_portable_path. unfold_io.
  destruct (filesystem2unicode h _) as [dir|e]; [|reflexivity].
  unfold mkstemp.
  destruct (mkstemp_outcome h dir) as [[fd name]|e].
  - unfold os_close. rewrite decide_True.
    2:{ simpl. apply elem_of_union. left. by apply elem_of_singleton. }
    unfold os_unlink. simpl. by rewrite lookup_insert_eq.
  - by destruct (caught_by e OSError).
Qed.

Lemma respects_portable_path (h : host) :
  respects readonly (get_win32_portable_path h).
Proof.
  intros w. rewrite get_win32_portable_path_cases.
  destruct (filesystem2unicode h _) as [dir|e]; [|apply readonly_refl].
  destruct (mkstemp_outcome h dir) as [[fd name]|e].
  - simpl. repeat split; simpl.
    + apply elem_of_subseteq. intros x [Hx Hn]%elem_of_difference.
      apply elem_of_union in Hx as [Hx|Hx]; [contradiction | exact Hx].
    + rewrite delete_insert_eq. apply delete_subseteq.
  - destruct (caught_by e OSError); apply readonly_refl.
Qed.


Lemma respects_settings_path (h : host) (v : pyval) :
  respects readonly (get_default_settings_path h v).
Proof.
  unfold get_default_settings_path.
  apply (respects_bind _ readonly_trans);
    [|intros p; apply (respects_ret _ readonly_refl)].
  destruct (eq_str v UNIX_VERSION).
  { apply (respects_bind _ readonly_trans).
    - apply (respects_environ_get _ readonly_refl).
    - intros raw. apply (respects_lift _ readonly_refl). }
  destruct (eq_str v WINDOWS_VERSION);
    [apply (respects_app_data _ readonly_refl)|].
  destruct (eq_str v WINDOWS_PORTABLE_VERSION);
    [apply respects_portable_path | apply (respects_raise _ readonly_refl)].
Qed.

Lemma respects_user_data_path (h : host) (v : pyval) :
  respects readonly (get_default_user_data_path h v).
Proof.
  unfold get_default_user_data_path.
  destruct (eq_str v UNIX_VERSION).
  { apply (respects_bind _ readonly_trans).
    - apply (respects_environ_get _ readonly_refl).
    - intros raw. apply (respects_lift _ readonly_refl). }
  destruct (eq_str v WINDOWS_VERSION);
    [apply (respects_app_data _ readonly_refl)|].
  destruct (eq_str v WINDOWS_PORTABLE_VERSION);
    [apply respects_portable_path | apply (respects_raise _ readonly_refl)].
Qed.

Lemma respects_settings_context (h : host) (v : pyval) :
  respects readonly (get_default_settings_context h v).
Proof.
  unfold get_default_settings_context.
  apply (respects_bind _ readonly_trans);
    [|intros c; apply (respects_ret _ readonly_refl)].
  destruct (truthy v); [apply (respects_lift _ readonly_refl)|].
  apply (respects_bind _ readonly_trans).
  - apply respects_user_data_path.
  - intros p. apply (respects_lift _ readonly_refl).
Qed.

Lemma respects_portable_paths (h : host) (name : pyval) :
  respects readonly (get_portable_paths h name).
Proof.
  unfold get_portable_paths.
  repeat (destruct (eq_str name _);
    [apply (respects_bind _ readonly_trans);
       [apply respects_portable_path
       |intros p; apply (respects_ret _ readonly_refl)]|]).
  apply (respects_raise _ readonly_refl).
Qed.

(** The path functions leave no trace: whatever they are given and
    whether they return or raise, [get_default_settings_path],
    [get_default_user_data_path], [get_portable_paths] and
    [get_default_settings_context] print nothing, leave [os.environ]
    alone, make no socket call, leave no new file descriptor open and
    add or change no file (the probe file of the portable directory is
    gone again). *)
Theorem path_functions_readonly (h : host) (v : pyval) :
  respects readonly (get_default_settings_path h v)
  ∧ respects readonly (get_default_user_data_path h v)
  ∧ respects readonly (get_portable_paths h v)
  ∧ respects readonly (get_default_settings_context h v).
Proof.
  split; [apply respects_settings_path|].
  split; [apply respects_user_data_path|].
  split; [apply respects_portable_paths | apply respects_settings_context].
Qed.

(** [get_portable_paths]: a name other than the three it knows raises
    [TypeError] before the portable directory is probed; for the three
    names the result lies in the directory [openslides] of the portable
    directory when that is writable, and [PortableDirNotWritable] is
    raised when creating the probe file raises [OSError]. *)
Theorem get_portable_paths_spec (h : host) (w : world) :
  let raw := Bytes (dirname (path h) (abspath (path h) (executable h))) in
  (∀ name,
     name ≠ PStr "database" → name ≠ PStr "media" →
     name ≠ PStr "whoosh_index" →
     get_portable_paths h name w
     = (Raise (Exc TypeError ("Unknown type " +:+ py_str name)), w))
  ∧ (∀ dir fd probe,
       filesystem2unicode h raw = Return dir →
       mkstemp_outcome h dir = Return (fd, probe) →
       (get_portable_paths h (PStr "database") w).1
       = Return (join (path h) dir ["openslides"; "database.sqlite"])
       ∧ (get_portable_paths h (PStr "media") w).1
         = Return (join (path h) dir ["openslides"; "media"; EmptyString])
       ∧ (get_portable_paths h (PStr "whoosh_index") w).1
         = Return (join (path h) dir
                     ["openslides"; "whoosh_index"; EmptyString]))
  ∧ (∀ dir e,
       filesystem2unicode h raw = Return dir →
       mkstemp_outcome h dir = Raise e →
       caught_by e OSError = true →
       raises (get_portable_paths h (PStr "database") w).1
         PortableDirNotWritable
       ∧ raises (get_portable_paths h (PStr "media") w).1
           PortableDirNotWritable
       ∧ raises (get_portable_paths h (PStr "whoosh_index") w).1
           PortableDirNotWritable).
Proof.
  intros raw. split; [|split].
  - intros name H1 H2 H3. unfold get_portable_paths.
    by rewrite (eq_str_false _ _ H1), (eq_str_false _ _ H2),
      (eq_str_false _ _ H3).
  - intros dir fd probe Hdir Hmk. unfold get_portable_paths.
    cbn [eq_str String.eqb Ascii.eqb Bool.eqb]. unfold mbind, io_bind.
    rewrite get_win32_portable_path_cases. fold raw. rewrite Hdir, Hmk.
    by repeat split.
  - intros dir e Hdir Hmk Hc. unfold get_portable_paths.
    cbn [eq_str String.eqb Ascii.eqb Bool.eqb]. unfold mbind, io_bind.
    rewrite get_win32_portable_path_cases. fold raw. rewrite Hdir, Hmk, Hc.
    repeat split; eexists; reflexivity.
Qed.

(** On the portable sample host the three names resolve below
    [C:\OpenSlides\openslides]; the media and index paths end with a
    separator. *)
Example get_portable_paths_samples :
  (get_portable_paths (portable_host tmp_ok) (PStr "database") sample_world).1
  = Return "C:\OpenSlides\openslides\database.sqlite"
  ∧ (get_portable_paths (portable_host tmp_ok) (PStr "media") sample_world).1
    = Return "C:\OpenSlides\openslides\media\"
  ∧ (get_portable_paths (portable_host tmp_ok) (PStr "whoosh_index")
       sample_world).1
    = Return "C:\OpenSlides\openslides\whoosh_index\"
  ∧ raises (get_portable_paths (portable_host tmp_ok) (PStr "static")
              sample_world).1 TypeError.
Proof. repeat split. eexists. reflexivity. Qed.


(** *** Default paths per deployment target *)

(** For the two Windows types the default settings file lies in the
    directory [openslides] of the default user data path: the settings
    path is computed from the very directory the user data path is,
    with the same effects and the same exceptions.  With the Windows
    version both functions raise when [SHGetFolderPathW] reports an
    error, and return the local application data folder otherwise. *)
Theorem windows_paths_agree (h : host) (w : world) :
  (∀ t, t = WINDOWS_VERSION ∨ t = WINDOWS_PORTABLE_VERSION →
     get_default_settings_path h (PStr t) w
     = (get_default_user_data_path h (PStr t)
        ≫= λ parent,
             mret (join (path h) parent ["openslides"; "settings.py"])) w)
  ∧ (∀ res buf, shell32 h = Some (res, buf) → res ≠ 0%Z →
       raises (get_default_user_data_path h (PStr WINDOWS_VERSION) w).1
         Exception
       ∧ raises (get_default_settings_path h (PStr WINDOWS_VERSION) w).1
           Exception)
  ∧ (∀ buf, shell32 h = Some (0%Z, buf) →
       get_default_user_data_path h (PStr WINDOWS_VERSION) w = (Return buf, w)
       ∧ get_default_settings_path h (PStr WINDOWS_VERSION) w
         = (Return (join (path h) buf ["openslides"; "settings.py"]), w)).
Proof.
  split; [|split].
  - intros t [-> | ->]; reflexivity.
  - intros res buf Hs Hres.
    unfold get_default_settings_path, get_default_user_data_path.
    cbn [eq_str]. unfold mbind, io_bind, get_win32_app_data_path.
    change (String.eqb WINDOWS_VERSION UNIX_VERSION) with false.
    change (String.eqb WINDOWS_VERSION WINDOWS_VERSION) with true.
    cbn iota. rewrite Hs. apply Z.eqb_neq in Hres. rewrite Hres. simpl.
    split; eexists; reflexivity.
  - intros buf Hs.
    unfold get_default_settings_path, get_default_user_data_path.
    cbn [eq_str]. unfold mbind, io_bind, get_win32_app_data_path.
    change (String.eqb WINDOWS_VERSION UNIX_VERSION) with false.
    change (String.eqb WINDOWS_VERSION WINDOWS_VERSION) with true.
    cbn iota. rewrite Hs. by split.
Qed.

(** For the Unix version the default user data path is [XDG_DATA_HOME]
    if it is set and [~/.local/share] otherwise, as unicode, and the
    world is left as it is; when that value cannot be decoded, both
    default path functions raise [UnicodeDecodeError]. *)
Theorem unix_user_data_path (h : host) (w : world) :
  (∀ data_home,
     filesystem2unicode h
       (Bytes (default (join (path h) (home h) [".local"; "share"])
                 (environ w !! "XDG_DATA_HOME")))
     = Return data_home →
     get_default_user_data_path h (PStr UNIX_VERSION) w
     = (Return data_home, w))
  ∧ (fs_decode h (default (join (path h) (home h) [".local"; "share"])
                    (environ w !! "XDG_DATA_HOME")) = None →
     raises (get_default_user_data_path h (PStr UNIX_VERSION) w).1
       UnicodeDecodeError)
  ∧ (fs_decode h (default (join (path h) (home h) [".config"])
                    (environ w !! "XDG_CONFIG_HOME")) = None →
     raises (get_default_settings_path h (PStr UNIX_VERSION) w).1
       UnicodeDecodeError).
Proof.
  split; [|split].
  - intros data_home Hd. unfold get_default_user_data_path.
    change (eq_str (PStr UNIX_VERSION) UNIX_VERSION) with true. cbn iota.
    unfold environ_get. unfold_io. by rewrite Hd.
  - intros Hd. unfold get_default_user_data_path.
    change (eq_str (PStr UNIX_VERSION) UNIX_VERSION) with true. cbn iota.
    unfold environ_get, filesystem2unicode. unfold_io. rewrite Hd.
    eexists. reflexivity.
  - intros Hd. unfold get_default_settings_path.
    change (eq_str (PStr UNIX_VERSION) UNIX_VERSION) with true. cbn iota.
    unfold environ_get, filesystem2unicode. unfold_io. rewrite Hd.
    eexists. reflexivity.
Qed.

(** The type [detect_openslides_type] reports is one the default path
    functions accept: called with it they never raise the [TypeError]
    of an invalid type (given that [tempfile.mkstemp] raises none). *)
Theorem detected_type_is_valid (h : host) (w : world) :
  (∀ dir e, mkstemp_outcome h dir = Raise e → exc_type e ≠ TypeError) →
  ¬ raises (get_default_settings_path h (PStr (detect_openslides_type h)) w).1
      TypeError
  ∧ ¬ raises
        (get_default_user_data_path h (PStr (detect_openslides_type h)) w).1
        TypeError.
Proof.
  intros Hlib.
  assert (Hport : ¬ raises (get_win32_portable_path h w).1 TypeError).
  { rewrite get_win32_portable_path_cases.
    destruct (filesystem2unicode h _) as [dir|e] eqn:Hd.
    - destruct (mkstemp_outcome h dir) as [[fd name]|e] eqn:Hmk.
      + intros [msg [=]].
      + destruct (caught_by e OSError); intros [msg [= H]].
        apply (Hlib dir e Hmk). by rewrite H.
    - unfold filesystem2unicode in Hd.
      destruct (fs_decode h _); [discriminate|]. injection Hd as <-.
      intros [msg [=]]. }
  assert (Happ : ¬ raises (get_win32_app_data_path h w).1 TypeError).
  { unfold get_win32_app_data_path.
    destruct (shell32 h) as [[res buf]|]; [|intros [msg [=]]].
    destruct (negb _); intros [msg [=]]. }
  assert (Hdec : ∀ raw, ¬ raises (filesystem2unicode h (Bytes raw)) TypeError).
  { intros raw. unfold filesystem2unicode.
    destruct (fs_decode h raw); intros [msg [=]]. }
  unfold detect_openslides_type.
  destruct (String.eqb (platform h) "win32");
    [destruct (String.eqb _ "openslides.exe")|].
  - unfold get_default_settings_path, get_default_user_data_path.
    change (eq_str (PStr WINDOWS_PORTABLE_VERSION) UNIX_VERSION) with false.
    change (eq_str (PStr WINDOWS_PORTABLE_VERSION) WINDOWS_VERSION) with false.
    change (eq_str (PStr WINDOWS_PORTABLE_VERSION) WINDOWS_PORTABLE_VERSION)
      with true.
    cbn iota. unfold mbind, io_bind. split; [|exact Hport].
    destruct (get_win32_portable_path h w) as [[p|e] w1];
      [intros [msg [=]] | exact Hport].
  - unfold get_default_settings_path, get_default_user_data_path.
    change (eq_str (PStr WINDOWS_VERSION) UNIX_VERSION) with false.
    change (eq_str (PStr WINDOWS_VERSION) WINDOWS_VERSION) with true.
    cbn iota. unfold mbind, io_bind. split; [|exact Happ].
    destruct (get_win32_app_data_path h w) as [[p|e] w1];
      [intros [msg [=]] | exact Happ].
  - unfold get_default_settings_path, get_default_user_data_path.
    change (eq_str (PStr UNIX_VERSION) UNIX_VERSION) with true.
    cbn iota. unfold environ_get. unfold_io.
    split.
    + specialize (Hdec (default (join (path h) (home h) [".config"])
                          (environ w !! "XDG_CONFIG_HOME"))).
      destruct (filesystem2unicode h _) as [u|e];
        [intros [msg [=]] | exact Hdec].
    + apply Hdec.
Qed.

Lemma detected_type_is_valid_witness :
  (∀ dir e, mkstemp_outcome (portable_host tmp_ok) dir = Raise e →
            exc_type e ≠ TypeError)
  ∧ ¬ raises (get_default_settings_path (portable_host tmp_ok)
                (PStr (detect_openslides_type (portable_host tmp_ok)))
                sample_world).1 TypeError
  ∧ ¬ raises (get_default_user_data_path (portable_host tmp_ok)
                (PStr (detect_openslides_type (portable_host tmp_ok)))
                sample_world).1 TypeError.
Proof.
  assert (H : ∀ dir e, mkstemp_outcome (portable_host tmp_ok) dir = Raise e →
                       exc_type e ≠ TypeError)
    by (intros dir e; discriminate).
  split; [exact H|].
  exact (detected_type_is_valid (portable_host tmp_ok) sample_world H).
Defined.


(** *** The settings context and the settings file *)

Lemma with_path_keys (h : host) (first : text) (more : list string)
    (values : gmap string string) :
  get_user_data_path_values_with_path h first more = Return values →
  dom values = context_keys
  ∧ values !! "import_function" = Some EmptyString.
Proof.
  unfold get_user_data_path_values_with_path. cbn [foldl].
  cbn [mbind result_bind].
  do 3 (destruct (filesystem2unicode h _) as [?u|?e]);
    cbn [mbind result_bind]; try discriminate.
  intros [= <-]. split.
  - rewrite !dom_insert_L, dom_singleton_L. unfold context_keys.
    apply set_eq. intros k.
    rewrite !elem_of_union, !elem_of_singleton. tauto.
  - by rewrite !lookup_insert_ne, lookup_singleton_eq.
Qed.

Lemma with_path_unicode (h : host) (u : string) (more : list string) :
  ∃ values,
    get_user_data_path_values_with_path h (Unicode u) more = Return values.
Proof.
  unfold get_user_data_path_values_with_path. cbn [foldl text_map].
  cbn [mbind result_bind filesystem2unicode]. by eexists.
Qed.

Lemma path_values_keys (h : host) (p : text) (dflt : bool) (t : pyval)
    (values : gmap string string) :
  get_user_data_path_values h p dflt t = Return values →
  dom values = context_keys.
Proof.
  unfold get_user_data_path_values.
  destruct (dflt && eq_str t WINDOWS_PORTABLE_VERSION).
  - intros [= <-]. rewrite !dom_insert_L, dom_empty_L. unfold context_keys.
    apply set_eq. intros k.
    rewrite !elem_of_union, !elem_of_singleton, elem_of_empty. tauto.
  - intros H. by apply with_path_keys in H as [H _].
Qed.

(** Every context [get_default_settings_context] returns has the same
    five keys, the four path values of the template and [debug], and
    [debug] is ['False']: on every deployment target and for every
    given user data path the settings template finds what it names. *)
Theorem settings_context_keys (h : host) (user_data_path : pyval) (w : world)
    (context : gmap string string) :
  (get_default_settings_context h user_data_path w).1 = Return context →
  dom context = {[ "debug" ]} ∪ context_keys
  ∧ context !! "debug" = Some "False".
Proof.
  unfold get_default_settings_context. unfold_io.
  set (stage := if truthy user_data_path then _ else _).
  assert (Hstage : ∀ c w1, stage w = (Return c, w1) → dom c = context_keys).
  { unfold stage. destruct (truthy user_data_path).
    - intros c w1 [= H _]. destruct (as_text user_data_path) as [p|e];
        cbn [mbind result_bind] in H; [|discriminate].
      by apply path_values_keys in H.
    - intros c w1 H.
      destruct (get_default_user_data_path h _ w) as [[p|e] w2];
        [|discriminate].
      injection H as H _. by apply path_values_keys in H. }
  destruct (stage w) as [[c|e] w1] eqn:Hs; [|discriminate].
  simpl. intros [= <-]. split.
  - by rewrite dom_insert_L, (Hstage c w1 eq_refl).
  - apply lookup_insert_eq.
Qed.

Lemma settings_context_keys_witness :
  ∃ context,
    (get_default_settings_context unix_host (PStr "/srv/openslides")
       sample_world).1 = Return context
    ∧ dom context = {[ "debug" ]} ∪ context_keys
    ∧ context !! "debug" = Some "False".
Proof.
  eexists. split; [reflexivity|].
  exact (settings_context_keys unix_host (PStr "/srv/openslides")
           sample_world _ eq_refl).
Defined.

(** With a user data path that is a unicode string,
    [get_user_data_path_values] never raises; with the default of the
    portable version it returns calls of [get_portable_paths] instead
    of paths, each with a name that function knows: such a call fails
    only as [get_win32_portable_path] fails. *)
Theorem path_values_total_on_unicode (h : host) (u : string) (dflt : bool)
    (t : pyval) :
  (∃ values,
     get_user_data_path_values h (Unicode u) dflt t = Return values
     ∧ dom values = context_keys)
  ∧ ∀ p values,
      get_user_data_path_values h p true (PStr WINDOWS_PORTABLE_VERSION)
      = Return values →
      values !! "database_path_value" = Some "get_portable_paths('database')"
      ∧ values !! "media_path_value" = Some "get_portable_paths('media')"
      ∧ values !! "whoosh_index_path_value"
        = Some "get_portable_paths('whoosh_index')"
      ∧ ∀ w name e w',
          name ∈ [PStr "database"; PStr "media"; PStr "whoosh_index"] →
          get_portable_paths h name w = (Raise e, w') →
          get_win32_portable_path h w = (Raise e, w').
Proof.
  split.
  - unfold get_user_data_path_values.
    destruct (dflt && eq_str t WINDOWS_PORTABLE_VERSION) eqn:Hb.
    + eexists. split; [reflexivity|].
      apply (path_values_keys h (Unicode u) dflt t).
      unfold get_user_data_path_values. by rewrite Hb.
    + destruct (with_path_unicode h u ["openslides"]) as [values Hv].
      exists values. split; [exact Hv|].
      by apply with_path_keys in Hv as [Hv _].
  - intros p values. unfold get_user_data_path_values.
    change (true && eq_str (PStr WINDOWS_PORTABLE_VERSION)
                      WINDOWS_PORTABLE_VERSION) with true.
    cbn iota. intros [= <-].
    split; [by rewrite lookup_insert_ne, lookup_insert_ne, lookup_insert_eq|].
    split; [by rewrite lookup_insert_ne, lookup_insert_eq|].
    split; [by rewrite lookup_insert_eq|].
    intros w name e w' Hin.
    assert (Hcase : ∀ sub,
              (get_win32_portable_path h
               ≫= λ portable, mret (join (path h) portable sub)) w
              = (Raise e, w') →
              get_win32_portable_path h w = (Raise e, w')).
    { intros sub. unfold mbind, io_bind.
      destruct (get_win32_portable_path h w) as [[p0|e0] w0];
        [discriminate | done]. }
    repeat (apply elem_of_cons in Hin as [->|Hin]; [apply Hcase|]).
    by apply elem_of_nil in Hin.
Qed.



Lemma respects_write_settings (h : host) (settings_path : string)
    (template : option string) (context : gmap string string) :
  respects quiet (write_settings h settings_path template context).
Proof.
  unfold write_settings.
  apply (respects_bind _ quiet_trans).
  { destruct template; [apply (respects_ret _ quiet_refl)|].
    apply (respects_read_file _ quiet_refl). }
  intros t. apply (respects_bind _ quiet_trans);
    [apply (respects_lift _ quiet_refl)|].
  intros content. apply (respects_bind _ quiet_trans);
    [apply (respects_exists _ quiet_refl)|].
  intros present. apply (respects_bind _ quiet_trans).
  { destruct (negb present); [|apply (respects_ret _ quiet_refl)].
    intros w. unfold os_makedirs.
    destruct (fs w !! _); [apply quiet_refl | by repeat split]. }
  intros _ w. unfold write_file.
  destruct (fs w !! settings_path) as [[c|]|];
    first [apply quiet_refl | by repeat split].
Qed.

(** [ensure_settings] skips its work when the path is falsy or taken. *)
Lemma ensure_settings_skip (h : host) (settings : pyval)
    (args : gmap string pyval) (w : world) :
  truthy settings = false ∨ (∃ p, settings = PStr p ∧ is_Some (fs w !! p)) →
  ensure_settings h settings args w = (Return (), w).
Proof.
  intros [Hf|(p & -> & Hex)]; unfold ensure_settings.
  - by rewrite Hf.
  - destruct (truthy (PStr p)); [|reflexivity].
    unfold as_path, exists_. unfold_io. by rewrite bool_decide_eq_true_2.
Qed.

(** The three ways a call of [ensure_settings] can end. *)
Lemma ensure_settings_outcome (h : host) (settings : pyval)
    (args : gmap string pyval) (w : world) :
  let r := ensure_settings h settings args w in
  (r = (Return (), w)
   ∧ (truthy settings = false
      ∨ ∃ p, settings = PStr p ∧ is_Some (fs w !! p)))
  ∨ (∃ e, r.1 = Raise e ∧ quiet w r.2)
  ∨ (∃ p content,
       settings = PStr p
       ∧ r.1 = Return ()
       ∧ fs w !! p = None
       ∧ fs r.2 !! p = Some (File content)
       ∧ stdout r.2
         = stdout w
             ++ ["Settings file at " +:+ p +:+ " successfully created."]
       ∧ environ r.2 = environ w
       ∧ calls r.2 = calls w
       ∧ fds r.2 ⊆ fds w).
Proof.
  intros r.
  destruct (truthy settings) eqn:Ht.
  2:{ left. split; [|by left]. apply ensure_settings_skip. by left. }
  destruct settings as [|b|n|p].
  - discriminate.
  - right. left. unfold r, ensure_settings. rewrite Ht. simpl.
    eexists. split; [reflexivity | apply quiet_refl].
  - right. left. unfold r, ensure_settings. rewrite Ht. simpl.
    eexists. split; [reflexivity | apply quiet_refl].
  - destruct (fs w !! p) as [nd|] eqn:Hp.
    { left. assert (Hex : ∃ q, PStr p = PStr q ∧ is_Some (fs w !! q)).
      { exists p. by rewrite Hp. }
      split; [|by right]. apply ensure_settings_skip. by right. }
    right. unfold r, ensure_settings. clear r. rewrite Ht.
    unfold as_path, exists_. unfold_io.
    rewrite bool_decide_eq_false_2 by (rewrite Hp; by intros [? [=]]).
    simpl.
    set (stage := match args !! "user_data_path" with
                  | None => _ | Some v => _ end).
    assert (Hstage : readonly w (stage w).2).
    { unfold stage. destruct (args !! "user_data_path");
        apply respects_settings_context. }
    destruct (stage w) as [[c|e] w1]; simpl in Hstage.
    2:{ left. exists e. split; [reflexivity | exact (proj1 Hstage)]. }
    pose proof (respects_write_settings h p None c w1) as Hws.
    destruct (write_settings h p None c w1) as [[[]|e] w2] eqn:Hrun;
      simpl in Hws.
    2:{ left. exists e. split; [reflexivity|].
        exact (quiet_trans _ _ _ (proj1 Hstage) Hws). }
    destruct (quiet_trans _ _ _ (proj1 Hstage) Hws) as (Ho & He & Hc & Hf).
    destruct (write_settings_writes _ _ _ _ _ _ Hrun) as (content & Hfile & _).
    right. exists p, content. unfold print. simpl.
    repeat split; try assumption. by rewrite Ho.
Qed.

(** [ensure_settings] reports what it did and nothing else: it never
    touches [os.environ], makes no socket call and leaves no new file
    descriptor open.  It prints at most its one line, and only when it
    returns with the settings file written; when it raises it has
    printed nothing. *)
Theorem ensure_settings_reports (h : host) (settings : pyval)
    (args : gmap string pyval) (w : world) :
  let r := ensure_settings h settings args w in
  environ r.2 = environ w
  ∧ calls r.2 = calls w
  ∧ fds r.2 ⊆ fds w
  ∧ (stdout r.2 = stdout w
     ∨ ∃ p content,
         settings = PStr p
         ∧ r.1 = Return ()
         ∧ fs w !! p = None
         ∧ fs r.2 !! p = Some (File content)
         ∧ stdout r.2
           = stdout w
               ++ ["Settings file at " +:+ p +:+ " successfully created."])
  ∧ (∀ e, r.1 = Raise e → stdout r.2 = stdout w).
Proof.
  cbv zeta.
  pose proof (ensure_settings_outcome h settings args w) as H.
  cbv zeta in H.
  destruct H
    as [[Hr _]|[(e & He & Ho & Hen & Hc & Hf)
               |(p & content & -> & Hr & Hp & Hfile & Ho & Hen & Hc & Hf)]].
  - rewrite Hr. simpl. do 3 (split; [reflexivity|]).
    split; [by left | by intros].
  - do 3 (split; [assumption|]). split; [by left | by intros].
  - do 3 (split; [assumption|]). split.
    + right. by exists p, content.
    + intros e He. rewrite Hr in He. discriminate.
Qed.

(** The settings file is written once: after a call of
    [ensure_settings] that returned, a second call with the same
    arguments returns with the world unchanged. *)
Theorem ensure_settings_once (h : host) (settings : pyval)
    (args : gmap string pyval) (w : world) :
  (ensure_settings h settings args w).1 = Return () →
  ensure_settings h settings args (ensure_settings h settings args w).2
  = (Return (), (ensure_settings h settings args w).2).
Proof.
  intros Hret.
  pose proof (ensure_settings_outcome h settings args w) as H.
  cbv zeta in H.
  destruct H
    as [[Hr _]|[(e & He & _)
               |(p & content & -> & _ & _ & Hfile & _)]].
  - rewrite Hr. simpl. exact Hr.
  - congruence.
  - apply ensure_settings_skip. right. exists p.
    split; [reflexivity|]. by rewrite Hfile.
Qed.

Lemma ensure_settings_once_witness :
  let run := ensure_settings unix_host (PStr "/etc/openslides/settings.py") ∅ in
  (run sample_world).1 = Return ()
  ∧ run (run sample_world).2 = (Return (), (run sample_world).2).
Proof.
  intros run.
  assert (H : (run sample_world).1 = Return ()) by (by vm_compute).
  split; [exact H|].
  exact (ensure_settings_once unix_host _ ∅ sample_world H).
Defined.

(** On the portable sample host with a directory that is not writable
    and no user data path given, [ensure_settings] raises
    [PortableDirNotWritable] and the world is as before. *)
Example ensure_settings_portable_sample :
  ensure_settings (portable_host tmp_denied) (PStr "C:\conf\settings.py") ∅
    sample_world
  = (Raise (Exc PortableDirNotWritable
       ("Portable directory is not writeable. "
          +:+ "Please choose another directory for settings and data files.")),
     sample_world).
Proof. by vm_compute. Qed.

(** *** The database path *)

(** What [get_database_path_from_settings] returns tells the engine:
    the result is [None] exactly for a default database that is not
    SQLite3, and otherwise it is the configured [NAME], which is
    truthy; so a returned path is never empty. *)
Theorem database_path_result (DATABASES : gmap string (gmap string pyval))
    (v : pyval) :
  get_database_path_from_settings DATABASES = Return v →
  ∃ d name,
    DATABASES !! "default" = Some d
    ∧ d !! "NAME" = Some name
    ∧ truthy name = true
    ∧ ((v = name
        ∧ d !! "ENGINE" = Some (PStr "django.db.backends.sqlite3"))
       ∨ (v = PNone
          ∧ d !! "ENGINE" ≠ Some (PStr "django.db.backends.sqlite3")))
    ∧ (truthy v = false ↔ v = PNone).
Proof.
  unfold get_database_path_from_settings, DEFAULT_DB_ALIAS, dict_get.
  destruct (DATABASES !! "default") as [d|]; [|discriminate].
  case_bool_decide; [discriminate|].
  destruct (d !! "NAME") as [name|] eqn:Hn; simpl; [|discriminate].
  destruct (truthy name) eqn:Ht; simpl; [|discriminate].
  destruct (eq_str (default PNone (d !! "ENGINE")) _) eqn:He; simpl;
    intros [= <-]; exists d, name; repeat split; try done.
  - left. split; [reflexivity|]. apply eq_str_true in He.
    by destruct (d !! "ENGINE") as [e|]; simpl in He; subst.
  - congruence.
  - intros ->. discriminate.
  - right. split; [reflexivity|]. intros Heng. rewrite Heng in He.
    discriminate.
Qed.

Lemma database_path_result_witness :
  let DATABASES : gmap string (gmap string pyval) :=
    {[ "default" := {[ "NAME" := PStr "/var/lib/openslides/db.sqlite";
                       "ENGINE" := PStr "django.db.backends.sqlite3" ]} ]} in
  get_database_path_from_settings DATABASES
  = Return (PStr "/var/lib/openslides/db.sqlite")
  ∧ ∃ d name,
      DATABASES !! "default" = Some d
      ∧ d !! "NAME" = Some name
      ∧ truthy name = true
      ∧ ((PStr "/var/lib/openslides/db.sqlite" = name
          ∧ d !! "ENGINE" = Some (PStr "django.db.backends.sqlite3"))
         ∨ (PStr "/var/lib/openslides/db.sqlite" = PNone
            ∧ d !! "ENGINE" ≠ Some (PStr "django.db.backends.sqlite3")))
      ∧ (truthy (PStr "/var/lib/openslides/db.sqlite") = false
         ↔ PStr "/var/lib/openslides/db.sqlite" = PNone).
Proof.
  intros DATABASES.
  assert (H : get_database_path_from_settings DATABASES
              = Return (PStr "/var/lib/openslides/db.sqlite"))
    by (by vm_compute).
  split; [exact H|]. exact (database_path_result DATABASES _ H).
Defined.

End MainMore.
